(** * ITR filing: tax engine and record store

    A shallow embedding of [src/lib/tax-calculations.ts] (the
    [TaxCalculator] class and the [ITRStorage] class that follows it in the
    same source file) together with the record shapes of
    [src/lib/schemas/itr.ts].

    Conventions of the embedding.
    - A JavaScript [number] is modelled by an exact rational ([Q]); the
      literal [Infinity], which the source only uses as the upper bound of
      the top slab, has a constructor of its own in [bound].  Rounding of
      binary floating point is not modelled; statements about numbers use
      the equality [==] of [Q].
    - [forEach] with an accumulator and [reduce] are left folds.
    - A JavaScript object used as a dictionary is a [gmap string _]; the
      order of its keys is not modelled.
    - The host ([JSON], [localStorage], timers, the console) is explicit
      state; a method of the store is a computation over that state which
      may throw.  Time is simulated: [advance] lets milliseconds pass and
      runs the timers that are due.
    - A listener is an observer: each call of a listener is recorded with
      its argument; a listener neither throws nor calls the store. *)


From Stdlib Require Import QArith Qminmax Qabs Qround Lqa Ascii.
From stdpp Require Import base option list strings gmap fin_maps pretty sorting.

Set Warnings "-register-all".

(** * Part I: definitions *)

(** ** Record shapes ([src/lib/schemas/itr.ts]) *)

Module Employer.
Record t := mk {
  id : string;
  employerName : string;
  employerPan : string;
  grossSalary : Q;
  basicSalary : Q;
  hra : Q;
  otherAllowances : Q;
  professionalTax : Q;
  tdsDeducted : Q;
  fromDate : string;
  toDate : string
}.
End Employer.

Inductive PropertyType := self_occupied | let_out | deemed_let_out.

Module Property.
Record t := mk {
  id : string;
  propertyType : PropertyType;
  address : string;
  annualValue : Q;
  municipalTax : Q;
  interestOnLoan : Q;
  otherExpenses : Q
}.
End Property.

Module SalaryIncome.
Record t := mk { hasIncome : bool; employers : list Employer.t }.
End SalaryIncome.

Module HousePropertyIncome.
Record t := mk { hasIncome : bool; properties : list Property.t }.
End HousePropertyIncome.

Module CapitalGains.
Record t := mk {
  hasIncome : bool;
  shortTermGains : Q;
  longTermGains : Q;
  exemptLongTermGains : Q
}.
End CapitalGains.

Module OtherSources.
Record t := mk {
  hasIncome : bool;
  interestIncome : Q;
  dividendIncome : Q;
  otherIncome : Q
}.
End OtherSources.

Record IncomeDetails := mkIncomeDetails {
  salaryIncome : SalaryIncome.t;
  housePropertyIncome : HousePropertyIncome.t;
  capitalGains : CapitalGains.t;
  otherSources : OtherSources.t
}.

Module Section80C.
Record t := mk {
  lifeInsurance : Q;
  epf : Q;
  ppf : Q;
  elss : Q;
  nsc : Q;
  homeLoanPrincipal : Q;
  tuitionFees : Q;
  other80C : Q
}.
End Section80C.

Module Section80D.
Record t := mk {
  healthInsuranceSelf : Q;
  healthInsuranceFamily : Q;
  healthInsuranceParents : Q;
  preventiveHealthCheckup : Q
}.
End Section80D.

Inductive DeductionPercentage := pct50 | pct100.

Module Donation.
Record t := mk {
  id : string;
  doneeInstitution : string;
  doneeAddress : string;
  doneePan : string;
  amount : Q;
  deductionPercentage : DeductionPercentage;
  qualifyingAmount : Q
}.
End Donation.

Module OtherDeductions.
Record t := mk {
  section80E : Q;
  section80G : list Donation.t;
  section80TTA : Q;
  section80U : Q
}.
End OtherDeductions.

Record Deductions := mkDeductions {
  section80C : Section80C.t;
  section80D : Section80D.t;
  otherDeductions : OtherDeductions.t
}.

Record TaxCalculation := mkTaxCalculation {
  totalIncome : Q;
  totalDeductions : Q;
  taxableIncome : Q;
  taxBeforeRelief : Q;
  surcharge : Q;
  educationCess : Q;
  totalTaxLiability : Q
}.

(** [Object.values] of the two fixed-shape deduction buckets: the values of
    the own properties, in the order of the schema. *)
Definition Object_values_section80C (o : Section80C.t) : list Q :=
  [ Section80C.lifeInsurance o; Section80C.epf o; Section80C.ppf o;
    Section80C.elss o; Section80C.nsc o; Section80C.homeLoanPrincipal o;
    Section80C.tuitionFees o; Section80C.other80C o ].

Definition Object_values_section80D (o : Section80D.t) : list Q :=
  [ Section80D.healthInsuranceSelf o; Section80D.healthInsuranceFamily o;
    Section80D.healthInsuranceParents o; Section80D.preventiveHealthCheckup o ].

(** ** Tax slabs *)

(** The upper bound of a slab: a number or [Infinity]. *)
Inductive bound := Finite (q : Q) | Infinity.

Module Slab.
Record t := mk { min : Q; max : bound; rate : Q }.
End Slab.

Open Scope Q_scope.

(** [slab.max - slab.min] *)
Definition bound_minus (b : bound) (q : Q) : bound :=
  match b with
  | Finite m => Finite (m - q)
  | Infinity => Infinity
  end.

(** [Math.min(x, b)] for a finite [x] *)
Definition Math_min (x : Q) (b : bound) : Q :=
  match b with
  | Finite m => Qmin x m
  | Infinity => x
  end.

(** The slab tables in force (lines 21-26 and 37-44 of the source). *)
Definition TAX_SLABS_OLD : list Slab.t :=
  [ Slab.mk 0 (Finite 250000) 0;
    Slab.mk 250001 (Finite 500000) 5;
    Slab.mk 500001 (Finite 1000000) 20;
    Slab.mk 1000001 Infinity 30 ].

Definition TAX_SLABS_NEW : list Slab.t :=
  [ Slab.mk 0 (Finite 300000) 0;
    Slab.mk 300001 (Finite 600000) 5;
    Slab.mk 600001 (Finite 900000) 10;
    Slab.mk 900001 (Finite 1200000) 15;
    Slab.mk 1200001 (Finite 1500000) 20;
    Slab.mk 1500001 Infinity 30 ].

(** The old-regime table that the source keeps in a comment just above
    the one in force (lines 15-20): each slab starts where the previous one
    ends. *)
Definition TAX_SLABS_OLD_commented : list Slab.t :=
  [ Slab.mk 0 (Finite 250000) 0;
    Slab.mk 250000 (Finite 500000) 5;
    Slab.mk 500000 (Finite 1000000) 20;
    Slab.mk 1000000 Infinity 30 ].

(** ** TaxCalculator *)

Module TaxCalculator.

Definition calculateTotalIncome (incomeDetails : IncomeDetails) : Q :=
  let totalIncome := 0 in
  (* Salary Income *)
  let totalIncome :=
    if SalaryIncome.hasIncome (salaryIncome incomeDetails) then
      fold_left (fun totalIncome employer =>
                   totalIncome + Employer.grossSalary employer)
                (SalaryIncome.employers (salaryIncome incomeDetails))
                totalIncome
    else totalIncome in
  (* House Property Income *)
  let totalIncome :=
    if HousePropertyIncome.hasIncome (housePropertyIncome incomeDetails) then
      fold_left (fun totalIncome property =>
                   let netIncome :=
                     Property.annualValue property
                     - Property.municipalTax property
                     - Property.interestOnLoan property
                     - Property.otherExpenses property in
                   totalIncome + Qmax netIncome 0)
                (HousePropertyIncome.properties (housePropertyIncome incomeDetails))
                totalIncome
    else totalIncome in
  (* Capital Gains *)
  let totalIncome :=
    if CapitalGains.hasIncome (capitalGains incomeDetails) then
      totalIncome
      + CapitalGains.shortTermGains (capitalGains incomeDetails)
      + CapitalGains.longTermGains (capitalGains incomeDetails)
    else totalIncome in
  (* Other Sources *)
  let totalIncome :=
    if OtherSources.hasIncome (otherSources incomeDetails) then
      totalIncome
      + OtherSources.interestIncome (otherSources incomeDetails)
      + OtherSources.dividendIncome (otherSources incomeDetails)
      + OtherSources.otherIncome (otherSources incomeDetails)
    else totalIncome in
  totalIncome.

Definition calculateTotalDeductions (deductions : Deductions) : Q :=
  let totalDeductions := 0 in
  (* Section 80C *)
  let section80CTotal :=
    fold_left (fun sum value => sum + value)
              (Object_values_section80C (section80C deductions)) 0 in
  let totalDeductions := totalDeductions + Qmin section80CTotal 150000 in
  (* Section 80D *)
  let section80DTotal :=
    fold_left (fun sum value => sum + value)
              (Object_values_section80D (section80D deductions)) 0 in
  let totalDeductions := totalDeductions + section80DTotal in
  (* Other Deductions *)
  let totalDeductions :=
    totalDeductions + OtherDeductions.section80E (otherDeductions deductions) in
  let totalDeductions :=
    totalDeductions + OtherDeductions.section80TTA (otherDeductions deductions) in
  let totalDeductions :=
    totalDeductions + OtherDeductions.section80U (otherDeductions deductions) in
  (* Section 80G donations *)
  fold_left (fun totalDeductions donation =>
               totalDeductions + Donation.qualifyingAmount donation)
            (OtherDeductions.section80G (otherDeductions deductions))
            totalDeductions.

(** One turn of the loop of [calculateTax]. *)
Definition slab_step (taxableIncome : Q) (tax : Q) (slab : Slab.t) : Q :=
  if Qlt_le_dec (Slab.min slab) taxableIncome then
    let taxableAmountInSlab :=
      Math_min (taxableIncome - Slab.min slab)
               (bound_minus (Slab.max slab) (Slab.min slab)) in
    tax + (taxableAmountInSlab * Slab.rate slab) / 100
  else tax.

(** The loop of [calculateTax] over a given table. *)
Definition tax_over (slabs : list Slab.t) (taxableIncome : Q) : Q :=
  fold_left (slab_step taxableIncome) slabs 0.

Definition calculateTax (taxableIncome : Q) (useNewRegime : bool) : Q :=
  let slabs := if useNewRegime then TAX_SLABS_NEW else TAX_SLABS_OLD in
  tax_over slabs taxableIncome.

Definition calculateSurcharge (taxableIncome baseTax : Q) : Q :=
  if Qle_bool taxableIncome 5000000 then 0
  else if Qle_bool taxableIncome 10000000 then baseTax * (10 # 100)
  else if Qle_bool taxableIncome 20000000 then baseTax * (15 # 100)
  else if Qle_bool taxableIncome 50000000 then baseTax * (25 # 100)
  else baseTax * (37 # 100).

Definition calculateEducationCess (taxAndSurcharge : Q) : Q :=
  taxAndSurcharge * (4 # 100).

Definition calculateCompleteTax (incomeDetails : IncomeDetails)
    (deductions : Deductions) (useNewRegime : bool) : TaxCalculation :=
  let totalIncome := calculateTotalIncome incomeDetails in
  let totalDeductions :=
    if useNewRegime then 0 else calculateTotalDeductions deductions in
  let taxableIncome := Qmax (totalIncome - totalDeductions) 0 in
  let taxBeforeRelief := calculateTax taxableIncome useNewRegime in
  let surcharge := calculateSurcharge taxableIncome taxBeforeRelief in
  let taxAfterSurcharge := taxBeforeRelief + surcharge in
  let educationCess := calculateEducationCess taxAfterSurcharge in
  let totalTaxLiability := taxAfterSurcharge + educationCess in
  {| totalIncome := totalIncome;
     totalDeductions := totalDeductions;
     taxableIncome := taxableIncome;
     taxBeforeRelief := taxBeforeRelief;
     surcharge := surcharge;
     educationCess := educationCess;
     totalTaxLiability := totalTaxLiability |}.

Inductive Regime := old | new.

Record Comparison := mkComparison {
  oldRegime : TaxCalculation;
  newRegime : TaxCalculation;
  betterRegime : Regime
}.

Definition compareTaxRegimes (incomeDetails : IncomeDetails)
    (deductions : Deductions) : Comparison :=
  let oldRegime := calculateCompleteTax incomeDetails deductions false in
  let newRegime := calculateCompleteTax incomeDetails deductions true in
  let betterRegime :=
    if Qle_bool (totalTaxLiability oldRegime) (totalTaxLiability newRegime)
    then old else new in
  {| oldRegime := oldRegime; newRegime := newRegime;
     betterRegime := betterRegime |}.

End TaxCalculator.

(** ** Sample data *)

Definition employer_1200000 : Employer.t :=
  Employer.mk "e1" "Acme" "ABCDE1234F" 1200000 0 0 0 0 0 "2023-04-01" "2024-03-31".

Definition income_one_employer : IncomeDetails :=
  {| salaryIncome := SalaryIncome.mk true [employer_1200000];
     housePropertyIncome := HousePropertyIncome.mk false [];
     capitalGains := CapitalGains.mk false 0 0 0;
     otherSources := OtherSources.mk false 0 0 0 |}.

Definition zero_deductions : Deductions :=
  {| section80C := Section80C.mk 0 0 0 0 0 0 0 0;
     section80D := Section80D.mk 0 0 0 0;
     otherDeductions := OtherDeductions.mk 0 [] 0 0 |}.

(** ** Auxiliary notions for the statements on the tax engine *)

(** Sum of [f] over a list, written as a right fold; the loops of the
    source are left folds with the same summands. *)
Fixpoint sum_of {A} (f : A -> Q) (l : list A) : Q :=
  match l with
  | [] => 0
  | a :: l => f a + sum_of f l
  end.

(** The part of an income that falls into a slab, and what the slab adds
    to the tax. *)
Definition slab_amount (x : Q) (slab : Slab.t) : Q :=
  if Qlt_le_dec (Slab.min slab) x then
    Math_min (x - Slab.min slab) (bound_minus (Slab.max slab) (Slab.min slab))
  else 0.

Definition slab_tax (x : Q) (slab : Slab.t) : Q :=
  slab_amount x slab * Slab.rate slab / 100.

(** A slab is well formed when its rate is not negative and its upper
    bound is not below its lower bound. *)
Definition slab_wf (slab : Slab.t) : Prop :=
  0 <= Slab.rate slab /\
  match Slab.max slab with
  | Finite m => Slab.min slab <= m
  | Infinity => True
  end.

(** Sum of the rates of a table, as fractions. *)
Definition rate_sum (slabs : list Slab.t) : Q :=
  sum_of (fun s => Slab.rate s / 100) slabs.

Definition income_small : IncomeDetails :=
  {| salaryIncome :=
       SalaryIncome.mk true
         [Employer.mk "e1" "Acme" "ABCDE1234F" 100000 0 0 0 0 0 "2023-04-01" "2024-03-31"];
     housePropertyIncome := HousePropertyIncome.mk false [];
     capitalGains := CapitalGains.mk false 0 0 0;
     otherSources := OtherSources.mk false 0 0 0 |}.

Definition deductions_large : Deductions :=
  {| section80C := Section80C.mk 150000 0 0 0 0 0 0 0;
     section80D := Section80D.mk 25000 0 0 0;
     otherDeductions := OtherDeductions.mk 0 [] 0 0 |}.


Close Scope Q_scope.

(** ** JavaScript values that JSON text can carry *)
Inductive value :=
| VNull
| VBool (b : bool)
| VNum (q : Q)
| VStr (s : string)
| VArr (l : list value)
| VObj (m : gmap string value).

(** [!!v] *)
Definition truthy (v : value) : bool :=
  match v with
  | VNull => false
  | VBool b => b
  | VNum q => negb (Qeq_bool q 0)
  | VStr s => negb (String.eqb s "")
  | VArr _ | VObj _ => true
  end.

(** The own enumerable properties of a value: those of an object, the
    indices of an array or of a string, none for the other primitives. *)
Definition own_props (v : value) : gmap string value :=
  match v with
  | VObj m => m
  | VArr l => list_to_map (imap (fun i x => (pretty i, x)) l)
  | VStr s =>
      list_to_map (imap (fun i c => (pretty i, VStr (String c EmptyString)))
                        (String.list_ascii_of_string s))
  | _ => ∅
  end.

(** The object literal [{ ...a, ...b }]: the properties of [b] win. *)
Definition spread (a b : value) : value := VObj (own_props b ∪ own_props a).

Inductive exn := SyntaxError | QuotaExceededError | TypeError.

Inductive result (A : Type) := Ok (a : A) | Throw (e : exn).
Arguments Ok {A} a.
Arguments Throw {A} e.

(** [v.k], for a name [k] that is neither inherited nor [length]:
    reading a property of [null] throws, a missing property is
    [undefined] ([None]). *)
Definition get_property (v : value) (k : string) : result (option value) :=
  match v with
  | VNull => Throw TypeError
  | _ => Ok (own_props v !! k)
  end.

(** [!!x] for a property that was read: [undefined] is falsy. *)
Definition truthy_opt (x : option value) : bool :=
  match x with
  | Some v => truthy v
  | None => false
  end.

(** ** The host: [JSON], [localStorage], timers, the console *)

(** The [JSON] object of the host.  [JSON_parse] is [None] where
    [JSON.parse] throws a SyntaxError. *)
Class JSON := {
  JSON_stringify : value -> string;
  JSON_stringify_indent : value -> nat -> string;
  JSON_parse : string -> option value
}.

(** A Web Storage object: its items and the room it has, counted in
    characters of keys and values; a write that does not fit is rejected
    with a QuotaExceededError. *)
Module Storage.
Record t := mk { items : gmap string string; quota : nat }.

Definition used (items : gmap string string) : nat :=
  map_fold (fun k v n => String.length k + String.length v + n) 0 items.

Definition getItem (k : string) (s : t) : option string := items s !! k.

Definition accepts (k v : string) (s : t) : bool :=
  bool_decide (used (<[k:=v]> (items s)) ≤ quota s).

Definition setItem (k v : string) (s : t) : result t :=
  if accepts k v s then Ok (mk (<[k:=v]> (items s)) (quota s))
  else Throw QuotaExceededError.

Definition removeItem (k : string) (s : t) : t :=
    mk (delete k (items s)) (quota s).
  End Storage.

(** A pending timer.  The only callback the store schedules is
    [() => this.save(data)], so a timer keeps the [data] of its closure. *)
Record Timer := mkTimer {
  timer_id : positive;
  timer_due : nat;
  timer_data : value
}.

(** Timers run in the order of their due times. *)
Definition due_le (a b : Timer) : Prop := timer_due a ≤ timer_due b.

#[global] Instance due_le_dec : RelDecision due_le.
Proof. intros a b. unfold due_le. apply _. Defined.

(** The state of the host and of the one [ITRStorage] instance.  A
    listener is a callback, identified by a number; [calls] records, in
    order, every invocation of a listener with its argument. *)
Record World := mkWorld {
  localStorage : Storage.t;
  console : list string;
  now : nat;
  timers : list Timer;
  next_timer : positive;
  autoSaveTimer : option positive;
  listeners : list nat;
  calls : list (nat * value)
}.

Definition set_localStorage (s : Storage.t) (w : World) : World :=
  mkWorld s (console w) (now w) (timers w) (next_timer w) (autoSaveTimer w)
          (listeners w) (calls w).
Definition set_console (c : list string) (w : World) : World :=
  mkWorld (localStorage w) c (now w) (timers w) (next_timer w) (autoSaveTimer w)
          (listeners w) (calls w).
Definition set_now (t : nat) (w : World) : World :=
  mkWorld (localStorage w) (console w) t (timers w) (next_timer w) (autoSaveTimer w)
          (listeners w) (calls w).
Definition set_timers (ts : list Timer) (w : World) : World :=
  mkWorld (localStorage w) (console w) (now w) ts (next_timer w) (autoSaveTimer w)
          (listeners w) (calls w).
Definition set_next_timer (n : positive) (w : World) : World :=
  mkWorld (localStorage w) (console w) (now w) (timers w) n (autoSaveTimer w)
          (listeners w) (calls w).
Definition set_autoSaveTimer (t : option positive) (w : World) : World :=
  mkWorld (localStorage w) (console w) (now w) (timers w) (next_timer w) t
          (listeners w) (calls w).
Definition set_listeners (l : list nat) (w : World) : World :=
  mkWorld (localStorage w) (console w) (now w) (timers w) (next_timer w)
          (autoSaveTimer w) l (calls w).
Definition set_calls (c : list (nat * value)) (w : World) : World :=
  mkWorld (localStorage w) (console w) (now w) (timers w) (next_timer w)
          (autoSaveTimer w) (listeners w) c.

(** Computations that read and change the world and may throw; the state
    reached when an exception is thrown is kept, as in JavaScript. *)
Definition M (A : Type) : Type := World -> result A * World.

Definition ret {A} (a : A) : M A := fun w => (Ok a, w).
Definition throw {A} (e : exn) : M A := fun w => (Throw e, w).
Definition bind {A B} (m : M A) (k : A -> M B) : M B :=
  fun w =>
    match m w with
    | (Ok a, w') => k a w'
    | (Throw e, w') => (Throw e, w')
    end.
Definition try_catch {A} (body : M A) (handler : exn -> M A) : M A :=
  fun w =>
    match body w with
    | (Ok a, w') => (Ok a, w')
    | (Throw e, w') => handler e w'
    end.

Declare Scope js_scope.
Delimit Scope js_scope with js.
Notation "x <- m ;; k" := (bind m (fun x => k))
  (at level 100, m at next level, right associativity) : js_scope.
Notation "m ;;; k" := (bind m (fun _ => k))
  (at level 100, right associativity) : js_scope.
Local Open Scope js_scope.

Definition localStorage_getItem (k : string) : M (option string) :=
  fun w => (Ok (Storage.getItem k (localStorage w)), w).

Definition localStorage_setItem (k v : string) : M unit :=
  fun w =>
    match Storage.setItem k v (localStorage w) with
    | Ok s => (Ok tt, set_localStorage s w)
    | Throw e => (Throw e, w)
    end.

Definition localStorage_removeItem (k : string) : M unit :=
  fun w => (Ok tt, set_localStorage (Storage.removeItem k (localStorage w)) w).

Definition console_error (msg : string) : M unit :=
  fun w => (Ok tt, set_console (console w ++ [msg]) w).

(** [setTimeout(() => this.save(data), delay)]: the handle is a positive
    integer. *)
Definition setTimeout (data : value) (delay : nat) : M positive :=
  fun w =>
    let id := next_timer w in
    (Ok id,
     set_next_timer (Pos.succ id)
       (set_timers (timers w ++ [mkTimer id (now w + delay) data]) w)).

Definition clearTimeout (id : positive) : M unit :=
  fun w => (Ok tt, set_timers (filter (fun t => timer_id t ≠ id) (timers w)) w).

Definition get_autoSaveTimer : M (option positive) :=
  fun w => (Ok (autoSaveTimer w), w).

Definition put_autoSaveTimer (t : option positive) : M unit :=
  fun w => (Ok tt, set_autoSaveTimer t w).

Definition STORAGE_KEY : string := "itr-data".
Definition AUTO_SAVE_INTERVAL : nat := 5000.

(** The result of [getCompletionStatus]. *)
Module CompletionStatus.
Record t := mk {
personalDetails : bool;
incomeDetails : bool;
deductions : bool;
taxSummary : bool
}.
End CompletionStatus.

Module ITRStorage.
Section WithJSON.
Context {J : JSON}.

Definition JSON_parse_or_throw (text : string) : M value :=
  match JSON_parse text with
  | Some v => ret v
  | None => throw SyntaxError
  end.

(* Notify all listeners of data changes *)
Definition notifyListeners (data : value) : M unit :=
  fun w =>
    (Ok tt, set_calls (calls w ++ map (fun callback => (callback, data)) (listeners w)) w).

(* Load data from localStorage *)
Definition load : M value :=
  try_catch
    (data <- localStorage_getItem STORAGE_KEY ;;
     match data with
     | Some (String _ _ as data) => JSON_parse_or_throw data
     | _ => ret (VObj ∅)
     end)
    (fun error => console_error "Failed to load data:" ;;; ret (VObj ∅)).

(* Save data to localStorage *)
Definition save (data : value) : M unit :=
  try_catch
    (existingData <- load ;;
     let mergedData := spread existingData data in
     localStorage_setItem STORAGE_KEY (JSON_stringify mergedData) ;;;
     notifyListeners mergedData)
    (fun error => console_error "Failed to save data:").

(* Auto-save functionality *)
Definition autoSave (data : value) : M unit :=
  pending <- get_autoSaveTimer ;;
  (match pending with
   | Some t => clearTimeout t
   | None => ret tt
   end) ;;;
  t <- setTimeout data AUTO_SAVE_INTERVAL ;;
  put_autoSaveTimer (Some t).

(* Clear all data *)
Definition clear : M unit :=
  try_catch
    (localStorage_removeItem STORAGE_KEY ;;;
     notifyListeners (VObj ∅))
    (fun error => console_error "Failed to clear data:").

(* Subscribe to data changes *)
Definition subscribe (callback : nat) : M unit :=
  fun w =>
    (Ok tt,
     if bool_decide (callback ∈ listeners w) then w
     else set_listeners (listeners w ++ [callback]) w).

(** The function that [subscribe] returns. *)
Definition unsubscribe (callback : nat) : M unit :=
  fun w => (Ok tt, set_listeners (filter (fun c => c ≠ callback) (listeners w)) w).

(* Export data for backup *)
Definition export : M string :=
  data <- load ;;
  ret (JSON_stringify_indent data 2).

(* Import data from backup *)
Definition import (jsonData : string) : M bool :=
  try_catch
    (data <- JSON_parse_or_throw jsonData ;;
     save data ;;;
     ret true)
    (fun error => console_error "Failed to import data:" ;;; ret false).

(** [Object.keys(v).length]; [Object.keys(null)] throws. *)
Definition Object_keys_length (v : value) : result nat :=
  match v with
  | VNull => Throw TypeError
  | _ => Ok (size (own_props v))
  end.

(* Check if data exists *)
Definition hasData : M bool :=
  data <- load ;;
  fun w =>
    match Object_keys_length data with
    | Ok n => (Ok (bool_decide (0 < n)), w)
    | Throw e => (Throw e, w)
    end.

Definition lift {A} (r : result A) : M A := fun w => (r, w).

(* Get completion status of each section *)
Definition getCompletionStatus : M CompletionStatus.t :=
  data <- load ;;
  p <- lift (get_property data "personalDetails") ;;
  i <- lift (get_property data "incomeDetails") ;;
  d <- lift (get_property data "deductions") ;;
  t <- lift (get_property data "taxSummary") ;;
  ret {| CompletionStatus.personalDetails := truthy_opt p;
         CompletionStatus.incomeDetails := truthy_opt i;
         CompletionStatus.deductions := truthy_opt d;
         CompletionStatus.taxSummary := truthy_opt t |}.

(** ** The event loop *)

(** Running the callback of a timer. *)
Definition run_timer (w : World) (t : Timer) : World :=
  snd (save (timer_data t) w).

(** [ms] milliseconds pass: the timers that are due are taken off the
  pending list and run, earliest first. *)
Definition advance (ms : nat) (w : World) : World :=
  let t := now w + ms in
  let due := merge_sort due_le
               (filter (fun x => timer_due x ≤ t) (timers w)) in
  let rest := filter (fun x => ¬ timer_due x ≤ t) (timers w) in
  fold_left run_timer due (set_timers rest (set_now t w)).

(** ** Notions used in the statements on the store *)

(** The persisted snapshot: the value that [load] reads. *)
Definition snapshot (w : World) : value :=
  match (load w).1 with
  | Ok v => v
  | Throw _ => VObj ∅
  end.

(** The [mergedData] of [save data] in the world [w]. *)
Definition merged_of (data : value) (w : World) : value :=
  spread (snapshot w) data.

(** The write of [save data] in the world [w] goes through: the substrate
    accepts the text of the merged snapshot, and that text is not empty
    and parses back to the merged snapshot. *)
Definition persists (data : value) (w : World) : Prop :=
  let text := JSON_stringify (merged_of data w) in
  Storage.accepts STORAGE_KEY text (localStorage w) = true
  /\ text ≠ EmptyString
  /\ JSON_parse text = Some (merged_of data w).

End WithJSON.
End ITRStorage.

(** The partial snapshot [{ [section]: x }]. *)
Definition section_only (section : string) (x : value) : value :=
  VObj {[ section := x ]}.

(** Every pending timer is the one that [autoSaveTimer] remembers: the
    store is the only party that schedules timers. *)
Definition World_wf (w : World) : Prop :=
  Forall (fun t => autoSaveTimer w = Some (timer_id t)) (timers w).

(** A fresh page: nothing stored, no listener, no timer. *)
Definition initial_world (quota : nat) : World :=
  {| localStorage := Storage.mk ∅ quota;
     console := [];
     now := 0;
     timers := [];
     next_timer := 1;
     autoSaveTimer := None;
     listeners := [];
     calls := [] |}.

(** ** A reference [JSON]

    A printer and a parser for the part of the JSON grammar that the
    snapshots of this application use: [null], booleans, decimal numbers
    without exponent, strings with the escapes of the quote and of the
    backslash, arrays and objects.  The statements below hold for every
    [JSON]; this one is used to run the store on concrete data. *)
Module RefJSON.

Definition dq : ascii := "034"%char.
Definition bs : ascii := "092"%char.

Fixpoint escape (s : string) : string :=
  match s with
  | EmptyString => EmptyString
  | String c s =>
      if Ascii.eqb c dq || Ascii.eqb c bs then String bs (String c (escape s))
      else String c (escape s)
  end.

Definition quote (s : string) : string :=
  String dq (escape s +:+ String dq EmptyString).

Definition digit (n : Z) : ascii := Ascii.ascii_of_N (48 + Z.to_N n).

Fixpoint fraction_digits (fuel : nat) (r d : Z) : string :=
  match fuel with
  | O => EmptyString
  | S fuel =>
      if (r =? 0)%Z then EmptyString
      else String (digit (r * 10 / d)) (fraction_digits fuel ((r * 10) mod d) d)
  end.

Definition number_to_string (q : Q) : string :=
  let n := Z.abs (Qnum q) in
  let d := Z.pos (Qden q) in
  let sign := if (Qnum q <? 0)%Z then "-" else "" in
  let frac := fraction_digits 20 (n mod d) d in
  sign +:+ pretty (n / d)%Z
       +:+ match frac with EmptyString => "" | _ => "." +:+ frac end.

Fixpoint join (sep : string) (l : list string) : string :=
  match l with
  | [] => ""
  | [x] => x
  | x :: l => x +:+ sep +:+ join sep l
  end.

Fixpoint stringify (v : value) : string :=
  match v with
  | VNull => "null"
  | VBool true => "true"
  | VBool false => "false"
  | VNum q => number_to_string q
  | VStr s => quote s
  | VArr l => "[" +:+ join "," (map stringify l) +:+ "]"
  | VObj m =>
      "{" +:+ join "," (map (fun kv => quote kv.1 +:+ ":" +:+ kv.2)
                            (map_to_list (stringify <$> m))) +:+ "}"
  end.

(** [JSON.stringify(v, null, n)]: one element or member per line. *)
Definition nl : string := String "010" EmptyString.

Fixpoint spaces (n : nat) : string :=
  match n with
  | O => EmptyString
  | S n => String " " (spaces n)
  end.

Fixpoint stringify_at (gap cur : string) (v : value) : string :=
  let inner := cur +:+ gap in
  match v with
  | VArr [] => "[]"
  | VArr l =>
      "[" +:+ nl +:+ inner
          +:+ join ("," +:+ nl +:+ inner) (map (stringify_at gap inner) l)
          +:+ nl +:+ cur +:+ "]"
  | VObj m =>
      match map_to_list (stringify_at gap inner <$> m) with
      | [] => "{}"
      | members =>
          "{" +:+ nl +:+ inner
              +:+ join ("," +:+ nl +:+ inner)
                       (map (fun kv => quote kv.1 +:+ ": " +:+ kv.2) members)
              +:+ nl +:+ cur +:+ "}"
      end
  | _ => stringify v
  end.

Definition stringify_indent (v : value) (n : nat) : string :=
  match n with
  | O => stringify v
  | _ => stringify_at (spaces n) EmptyString v
  end.

Definition is_ws (c : ascii) : bool :=
  Ascii.eqb c " " || Ascii.eqb c "010" || Ascii.eqb c "013" || Ascii.eqb c "009".

Fixpoint skip_ws (s : string) : string :=
  match s with
  | String c rest => if is_ws c then skip_ws rest else s
  | EmptyString => s
  end.

Fixpoint expect (word s : string) : option string :=
  match word, s with
  | EmptyString, _ => Some s
  | String a word, String b s => if Ascii.eqb a b then expect word s else None
  | _, _ => None
  end.

(** The characters of a string literal, after its opening quote. *)
Fixpoint parse_string_body (s : string) : option (string * string) :=
  match s with
  | EmptyString => None
  | String c rest =>
      if Ascii.eqb c dq then Some (EmptyString, rest)
      else if Ascii.eqb c bs then
        match rest with
        | String e rest =>
            if Ascii.eqb e dq || Ascii.eqb e bs then
              match parse_string_body rest with
              | Some (str, rest) => Some (String e str, rest)
              | None => None
              end
            else None
        | EmptyString => None
        end
      else
        match parse_string_body rest with
        | Some (str, rest) => Some (String c str, rest)
        | None => None
        end
  end.

Definition digit_value (c : ascii) : option Z :=
  let n := Z.of_N (Ascii.N_of_ascii c) in
  if (48 <=? n)%Z && (n <=? 57)%Z then Some (n - 48)%Z else None.

(** A run of digits: its value, its length and what follows. *)
Fixpoint parse_digits (acc : Z) (len : nat) (s : string) : Z * nat * string :=
  match s with
  | String c rest =>
      match digit_value c with
      | Some d => parse_digits (acc * 10 + d) (S len) rest
      | None => (acc, len, s)
      end
  | EmptyString => (acc, len, s)
  end.

Fixpoint pow10 (n : nat) : positive :=
  match n with
  | O => 1
  | S n => 10 * pow10 n
  end.

Definition parse_number (s : string) : option (value * string) :=
  let '(neg, s) :=
    match s with
    | String "-" rest => (true, rest)
    | _ => (false, s)
    end in
  let '(int_part, int_len, s) := parse_digits 0 0 s in
  match int_len with
  | O => None
  | _ =>
      let '(mantissa, frac_len, s) :=
        match s with
        | String "." rest =>
            let '(m, len, rest') := parse_digits int_part 0 rest in
            match len with
            | O => (int_part, O, s)
            | _ => (m, len, rest')
            end
        | _ => (int_part, O, s)
        end in
      let q := Qred (Qmake (if neg then (- mantissa)%Z else mantissa)
                           (pow10 frac_len)) in
      Some (VNum q, s)
  end.

(** The elements of an array after the first bracket, and the members
    of an object after the first brace; [pv] parses one value. *)
Fixpoint parse_elements (pv : string -> option (value * string))
    (fuel : nat) (s : string) : option (list value * string) :=
  match fuel with
  | O => None
  | S fuel =>
      match pv s with
      | Some (v, rest) =>
          match skip_ws rest with
          | String "," rest =>
              match parse_elements pv fuel rest with
              | Some (vs, rest) => Some (v :: vs, rest)
              | None => None
              end
          | String "]" rest => Some ([v], rest)
          | _ => None
          end
      | None => None
      end
  end.

Fixpoint parse_members (pv : string -> option (value * string))
    (fuel : nat) (s : string) : option (gmap string value * string) :=
  match fuel with
  | O => None
  | S fuel =>
      match skip_ws s with
      | String c rest =>
          if Ascii.eqb c dq then
            match parse_string_body rest with
            | Some (k, rest) =>
                match skip_ws rest with
                | String ":" rest =>
                    match pv rest with
                    | Some (v, rest) =>
                        match skip_ws rest with
                        | String "," rest =>
                            match parse_members pv fuel rest with
                            | Some (m, rest) =>
                                Some (match m !! k with
                                      | Some _ => m
                                      | None => <[k:=v]> m
                                      end, rest)
                            | None => None
                            end
                        | String "}" rest => Some ({[k := v]}, rest)
                        | _ => None
                        end
                    | None => None
                    end
                | _ => None
                end
            | None => None
            end
          else None
      | EmptyString => None
      end
  end.

Fixpoint parse_value (fuel : nat) (s : string) : option (value * string) :=
  match fuel with
  | O => None
  | S fuel =>
      match skip_ws s with
      | String "n" rest => (fun r => (VNull, r)) <$> expect "ull" rest
      | String "t" rest => (fun r => (VBool true, r)) <$> expect "rue" rest
      | String "f" rest => (fun r => (VBool false, r)) <$> expect "alse" rest
      | String "[" rest =>
          match skip_ws rest with
          | String "]" rest => Some (VArr [], rest)
          | _ => (fun p => (VArr p.1, p.2)) <$> parse_elements (parse_value fuel) fuel rest
          end
      | String "{" rest =>
          match skip_ws rest with
          | String "}" rest => Some (VObj ∅, rest)
          | _ => (fun p => (VObj p.1, p.2)) <$> parse_members (parse_value fuel) fuel rest
          end
      | String c rest as s =>
          if Ascii.eqb c dq then
            (fun p => (VStr p.1, p.2)) <$> parse_string_body rest
          else parse_number s
      | EmptyString => None
      end
  end.

Definition parse (s : string) : option value :=
  match parse_value (S (String.length s)) s with
  | Some (v, rest) =>
      match skip_ws rest with
      | EmptyString => Some v
      | _ => None
      end
  | None => None
  end.

Definition ref : JSON :=
  {| JSON_stringify := stringify;
     JSON_stringify_indent := stringify_indent;
     JSON_parse := parse |}.

End RefJSON.


(** ** Histories *)

(** What can happen to the store: a call of one of its methods by the
    form layer, or time passing. *)
Inductive event :=
| Save (data : value)
| AutoSave (data : value)
| Clear
| Subscribe (callback : nat)
| Unsubscribe (callback : nat)
| Import (jsonData : string)
| Advance (ms : nat).

Definition step {J : JSON} (w : World) (e : event) : World :=
  match e with
  | Save data => (ITRStorage.save data w).2
  | AutoSave data => (ITRStorage.autoSave data w).2
  | Clear => (ITRStorage.clear w).2
  | Subscribe callback => (ITRStorage.subscribe callback w).2
  | Unsubscribe callback => (ITRStorage.unsubscribe callback w).2
  | Import jsonData => (ITRStorage.import jsonData w).2
  | Advance ms => ITRStorage.advance ms w
  end.

(** The world after a history that starts on a fresh page. *)
Definition run {J : JSON} (quota : nat) (history : list event) : World :=
  fold_left step history (initial_world quota).

(** ** Sample snapshots and stores *)

Definition personal_sample : value :=
  VObj {[ "firstName" := VStr "Asha"; "pan" := VStr "ABCDE1234F" ]}.

Definition personal_sample' : value :=
  VObj {[ "firstName" := VStr "Asha"; "lastName" := VStr "Rao" ]}.

Definition income_sample : value :=
  VObj {[ "salaryIncome" :=
            VObj {[ "hasIncome" := VBool true;
                    "employers" := VArr [VObj {[ "grossSalary" := VNum 1200000 ]}] ]} ]}.

(** A store that holds the personal section, with one listener. *)
Definition world_with_personal : World :=
  (ITRStorage.save (J := RefJSON.ref) (section_only "personalDetails" personal_sample)
     (ITRStorage.subscribe 7 (initial_world 4096)).2).2.

(** A store whose substrate has no room left, with one listener. *)
Definition world_full : World := (ITRStorage.subscribe 7 (initial_world 0)).2.

(** ** Further notions of the tax engine and of the forms *)

Open Scope Q_scope.

(** The net income of a property, before the floor at 0
    ([calculateTotalIncome], line 59). *)
Definition property_net (property : Property.t) : Q :=
  Property.annualValue property - Property.municipalTax property
  - Property.interestOnLoan property - Property.otherExpenses property.

(** [parseInt(percentage)] for the two values of the enum. *)
Definition parseInt_percentage (percentage : DeductionPercentage) : Q :=
  match percentage with
  | pct50 => 50
  | pct100 => 100
  end.

(** The qualifying amount that the donation dialog of the deductions form
    computes when the amount or the percentage changes:
    [(amount || 0) * parseInt(percentage || '100') / 100]; a field that is
    not filled in is [None]. *)
Definition donation_qualifyingAmount (amount : option Q)
    (deductionPercentage : option DeductionPercentage) : Q :=
  let amount :=
    match amount with
    | Some a => if Qeq_bool a 0 then 0 else a
    | None => 0
    end in
  let percentage :=
    match deductionPercentage with
    | Some p => p
    | None => pct100
    end in
  (amount * parseInt_percentage percentage) / 100.

Definition income_rented_flat : IncomeDetails :=
  {| salaryIncome :=
       SalaryIncome.mk true
         [Employer.mk "e1" "Acme" "ABCDE1234F" 900000 0 0 0 0 0 "2023-04-01" "2024-03-31"];
     housePropertyIncome :=
       HousePropertyIncome.mk true
         [Property.mk "p1" let_out "12 Lake Road" 120000 10000 150000 5000];
     capitalGains := CapitalGains.mk true 20000 30000 0;
     otherSources := OtherSources.mk false 0 0 0 |}.

Definition deductions_saturated : Deductions :=
  {| section80C := Section80C.mk 100000 50000 0 0 0 0 0 0;
     section80D := Section80D.mk 25000 0 0 0;
     otherDeductions := OtherDeductions.mk 0 [] 0 0 |}.

(** [Math.round(q)]: the nearest integer, halves upwards. *)
Definition Math_round (q : Q) : Z := Qfloor (q + (1 # 2)).

Close Scope Q_scope.

(** [Object.values(completionStatus)] *)
Definition Object_values_status (st : CompletionStatus.t) : list bool :=
  [ CompletionStatus.personalDetails st; CompletionStatus.incomeDetails st;
    CompletionStatus.deductions st; CompletionStatus.taxSummary st ].

(** [getCompletionPercentage] of the home page ([src/app/page.tsx]). *)
Definition getCompletionPercentage (completionStatus : CompletionStatus.t) : Z :=
  let completed :=
    length (filter (fun b : bool => b = true) (Object_values_status completionStatus)) in
  Math_round ((inject_Z (Z.of_nat completed) / 4) * 100)%Q.

(** The steps of the form. *)
Module FormStep.
Inductive t := personal | income | deductions | summary.
End FormStep.

#[global] Instance FormStep_eq_dec : EqDecision FormStep.t.
Proof. solve_decision. Defined.

(** [l.indexOf(x)]: the first index of [x], or -1. *)
Fixpoint indexOf (l : list FormStep.t) (x : FormStep.t) : Z :=
  match l with
  | [] => -1
  | y :: l =>
      if decide (y = x) then 0
      else let i := indexOf l x in if (i <? 0)%Z then -1 else (i + 1)%Z
  end.

(** [l[i]] *)
Definition at_index (l : list FormStep.t) (i : Z) : option FormStep.t :=
  if (i <? 0)%Z then None else l !! Z.to_nat i.

(** ** The hook [useITRForm]

    The parts of the hook that talk to the store.  The section key of a
    step is the conditional expression that the hook repeats at each
    use. *)
Module useITRForm.
Section WithJSON.
Context {J : JSON}.

Definition steps : list FormStep.t :=
  [FormStep.personal; FormStep.income; FormStep.deductions; FormStep.summary].

Definition section_key (step : FormStep.t) : string :=
  if decide (step = FormStep.personal) then "personalDetails"
  else if decide (step = FormStep.income) then "incomeDetails"
  else if decide (step = FormStep.deductions) then "deductions"
  else "taxSummary".

(* Load saved data on mount: the value given to form.reset, if any *)
Definition loadStepData (step : FormStep.t) : M (option value) :=
  (savedData <- ITRStorage.load ;;
   stepData <- ITRStorage.lift (get_property savedData (section_key step)) ;;
   ret (if truthy_opt stepData then stepData else None))%js.

Definition saveAndNext (step : FormStep.t) (data : value) : M bool :=
  (let saveData := section_only (section_key step) data in
   ITRStorage.save saveData ;;;
   ret true)%js.

Definition getNextStep (step : FormStep.t) : option FormStep.t :=
  let currentIndex := indexOf steps step in
  if (currentIndex <? Z.of_nat (length steps) - 1)%Z
  then at_index steps (currentIndex + 1)
  else None.

Definition getPreviousStep (step : FormStep.t) : option FormStep.t :=
  let currentIndex := indexOf steps step in
  if (0 <? currentIndex)%Z
  then at_index steps (currentIndex - 1)
  else None.

End WithJSON.
End useITRForm.

(** ** Further notions of the store *)

(** What is stored under the key of the store is absent or the text of an
    object. *)
Definition stores_object {J : JSON} (w : World) : Prop :=
  match Storage.getItem STORAGE_KEY (localStorage w) with
  | Some text => exists m : gmap string value, text = JSON_stringify (VObj m)
  | None => True
  end.

(** At most one timer is pending, and the store remembers it. *)
Definition one_timer (w : World) : Prop :=
  timers w = [] \/ exists tm, timers w = [tm] /\ autoSaveTimer w = Some (timer_id tm).

(** The calls made to one listener. *)
Definition calls_to (callback : nat) (w : World) : list (nat * value) :=
  filter (fun c => c.1 = callback) (calls w).

(** A burst of [autoSave] calls: each pair waits [d] ms and then calls
    [autoSave p]. *)
Definition autoSave_burst {J : JSON} (w : World) (burst : list (nat * value)) : World :=
  fold_left (fun w dp => (ITRStorage.autoSave dp.2 (ITRStorage.advance dp.1 w)).2) burst w.



Definition world_shared : World :=
  set_localStorage (Storage.mk {[ "theme" := "dark" ]} 4096) (initial_world 4096).

(** * Part II: the tax engine *)

Open Scope Q_scope.

(** ** Properties of the tax engine *)

Section TaxLemmas.

Import TaxCalculator.



Lemma fold_left_add {A} (f : A -> Q) (l : list A) (init : Q) :
  fold_left (fun acc a => acc + f a) l init == init + sum_of f l.
Proof.
  revert init. induction l as [|a l IH]; intros init; simpl.
  - lra.
  - rewrite IH. lra.
Qed.



Lemma slab_step_tax x tax slab : slab_step x tax slab == tax + slab_tax x slab.
Proof.
  unfold slab_step, slab_tax, slab_amount.
  destruct (Qlt_le_dec (Slab.min slab) x); [reflexivity | unfold Qdiv; ring].
Qed.

Lemma fold_slab_step x slabs init :
  fold_left (slab_step x) slabs init == init + sum_of (slab_tax x) slabs.
Proof.
  revert init. induction slabs as [|s slabs IH]; intros init; simpl.
  - lra.
  - rewrite IH, slab_step_tax. lra.
Qed.

Lemma tax_over_sum slabs x : tax_over slabs x == sum_of (slab_tax x) slabs.
Proof. unfold tax_over. rewrite fold_slab_step. lra. Qed.



Lemma slab_amount_nonneg x slab : slab_wf slab -> 0 <= slab_amount x slab.
Proof.
  intros [_ Hw]. unfold slab_amount.
  destruct (Qlt_le_dec (Slab.min slab) x) as [Hlt|Hle]; [|lra].
  destruct (Slab.max slab) as [m|]; simpl.
  - destruct (Q.min_spec (x - Slab.min slab) (m - Slab.min slab)) as [[? ->]|[? ->]]; lra.
  - lra.
Qed.

Lemma slab_amount_mono x y slab :
  slab_wf slab -> x <= y -> slab_amount x slab <= slab_amount y slab.
Proof.
  intros [_ Hw] Hxy. unfold slab_amount.
  destruct (Qlt_le_dec (Slab.min slab) x) as [Hx|Hx];
    destruct (Qlt_le_dec (Slab.min slab) y) as [Hy|Hy]; try lra;
    destruct (Slab.max slab) as [m|]; simpl; try lra.
  - destruct (Q.min_spec (x - Slab.min slab) (m - Slab.min slab)) as [[? ->]|[? ->]];
      destruct (Q.min_spec (y - Slab.min slab) (m - Slab.min slab)) as [[? ->]|[? ->]]; lra.
  - destruct (Q.min_spec (y - Slab.min slab) (m - Slab.min slab)) as [[? ->]|[? ->]]; lra.
Qed.

(** The taxed amount of a slab never grows faster than the income. *)
Lemma slab_amount_slope x y slab :
  slab_wf slab -> x <= y -> slab_amount y slab - slab_amount x slab <= y - x.
Proof.
  intros [_ Hw] Hxy. unfold slab_amount.
  destruct (Qlt_le_dec (Slab.min slab) x) as [Hx|Hx];
    destruct (Qlt_le_dec (Slab.min slab) y) as [Hy|Hy]; try lra;
    destruct (Slab.max slab) as [m|]; simpl; try lra.
  - destruct (Q.min_spec (x - Slab.min slab) (m - Slab.min slab)) as [[? ->]|[? ->]];
      destruct (Q.min_spec (y - Slab.min slab) (m - Slab.min slab)) as [[? ->]|[? ->]]; lra.
  - destruct (Q.min_spec (y - Slab.min slab) (m - Slab.min slab)) as [[? ->]|[? ->]]; lra.
Qed.

Lemma slab_tax_mono x y slab :
  slab_wf slab -> x <= y -> slab_tax x slab <= slab_tax y slab.
Proof.
  intros Hwf Hxy. unfold slab_tax.
  apply Qmult_le_compat_r; [|apply Qinv_le_0_compat; lra].
  apply Qmult_le_compat_r; [|apply Hwf].
  by apply slab_amount_mono.
Qed.

Lemma slab_tax_slope x y slab :
  slab_wf slab -> x <= y ->
  slab_tax y slab - slab_tax x slab <= (y - x) * Slab.rate slab / 100.
Proof.
  intros Hwf Hxy. unfold slab_tax.
  assert (H : (slab_amount y slab - slab_amount x slab) * Slab.rate slab / 100
              <= (y - x) * Slab.rate slab / 100).
  { apply Qmult_le_compat_r; [|apply Qinv_le_0_compat; lra].
    apply Qmult_le_compat_r; [|apply Hwf].
    by apply slab_amount_slope. }
  revert H. unfold Qdiv.
  set (a := slab_amount y slab). set (b := slab_amount x slab).
  set (r := Slab.rate slab). intros H.
  assert (E : a * r * / 100 - b * r * / 100 == (a - b) * r * / 100) by ring.
  rewrite E. exact H.
Qed.

Lemma sum_slab_tax_mono slabs x y :
  Forall slab_wf slabs -> x <= y ->
  sum_of (slab_tax x) slabs <= sum_of (slab_tax y) slabs.
Proof.
  intros Hwf Hxy. induction Hwf as [|s slabs Hs _ IH]; simpl.
  - lra.
  - pose proof (slab_tax_mono x y s Hs Hxy). lra.
Qed.



Lemma sum_slab_tax_slope slabs x y :
  Forall slab_wf slabs -> x <= y ->
  sum_of (slab_tax y) slabs - sum_of (slab_tax x) slabs
  <= (y - x) * rate_sum slabs.
Proof.
  intros Hwf Hxy. unfold rate_sum. induction Hwf as [|s slabs Hs _ IH]; simpl.
  - lra.
  - pose proof (slab_tax_slope x y s Hs Hxy) as H.
    revert H IH. unfold Qdiv.
    set (sy := sum_of (slab_tax y) slabs). set (sx := sum_of (slab_tax x) slabs).
    set (R := sum_of _ slabs). set (r := Slab.rate s). intros H IH.
    assert (E : (y - x) * (r * / 100 + R)
                == (y - x) * r * / 100 + (y - x) * R) by ring.
    rewrite E. lra.
Qed.

Lemma tax_over_mono slabs x y :
  Forall slab_wf slabs -> x <= y -> tax_over slabs x <= tax_over slabs y.
Proof. intros. rewrite !tax_over_sum. by apply sum_slab_tax_mono. Qed.

Lemma tax_over_slope slabs x y :
  Forall slab_wf slabs -> x <= y ->
  tax_over slabs y - tax_over slabs x <= (y - x) * rate_sum slabs.
Proof. intros. rewrite !tax_over_sum. by apply sum_slab_tax_slope. Qed.

Lemma TAX_SLABS_OLD_wf : Forall slab_wf TAX_SLABS_OLD.
Proof. repeat constructor; simpl; lra. Qed.

Lemma TAX_SLABS_NEW_wf : Forall slab_wf TAX_SLABS_NEW.
Proof. repeat constructor; simpl; lra. Qed.

Lemma regime_slabs_wf (useNewRegime : bool) :
  Forall slab_wf (if useNewRegime then TAX_SLABS_NEW else TAX_SLABS_OLD).
Proof. destruct useNewRegime; [apply TAX_SLABS_NEW_wf | apply TAX_SLABS_OLD_wf]. Qed.

Lemma regime_rate_sum (useNewRegime : bool) :
  rate_sum (if useNewRegime then TAX_SLABS_NEW else TAX_SLABS_OLD) <= 1.
Proof. destruct useNewRegime; vm_compute; discriminate. Qed.

Lemma calculateTax_mono x y regime :
  x <= y -> calculateTax x regime <= calculateTax y regime.
Proof. intros. apply tax_over_mono; [apply regime_slabs_wf | done]. Qed.

(** Between two incomes the tax of either regime grows by no more than
    the income does. *)
Lemma calculateTax_slope x y regime :
  x <= y -> calculateTax y regime - calculateTax x regime <= y - x.
Proof.
  intros Hxy. unfold calculateTax.
  pose proof (tax_over_slope _ x y (regime_slabs_wf regime) Hxy) as H.
  pose proof (regime_rate_sum regime) as HR.
  revert H HR. set (R := rate_sum _). set (d := tax_over _ y - tax_over _ x).
  intros H HR.
  assert ((y - x) * R <= (y - x) * 1).
  { rewrite !(Qmult_comm (y - x)). apply Qmult_le_compat_r; lra. }
  lra.
Qed.

End TaxLemmas.

(** ** Theorems on the tax engine *)

Section TaxTheorems.

Import TaxCalculator.

Lemma calculateTax_proper x y regime :
  x == y -> calculateTax x regime == calculateTax y regime.
Proof.
  intros E. apply Qle_antisym; apply calculateTax_mono; rewrite E; apply Qle_refl.
Qed.

Lemma calculateTax_zero x regime : x == 0 -> calculateTax x regime == 0.
Proof.
  intros E. rewrite (calculateTax_proper x 0 regime E).
  destruct regime; vm_compute; reflexivity.
Qed.

Lemma calculateSurcharge_low t base : t <= 5000000 -> calculateSurcharge t base = 0.
Proof.
  intros H. unfold calculateSurcharge.
  by rewrite (proj2 (Qle_bool_iff t 5000000) H).
Qed.

(** Whatever the other fields hold, one employer with gross salary
    1,200,000, the other sub-records disabled and no deduction give the
    same figures under the old regime. *)
Lemma calculateCompleteTax_one_employer incomeDetails deductions employer :
  SalaryIncome.hasIncome (salaryIncome incomeDetails) = true ->
  SalaryIncome.employers (salaryIncome incomeDetails) = [employer] ->
  Employer.grossSalary employer == 1200000 ->
  HousePropertyIncome.hasIncome (housePropertyIncome incomeDetails) = false ->
  CapitalGains.hasIncome (capitalGains incomeDetails) = false ->
  OtherSources.hasIncome (otherSources incomeDetails) = false ->
  calculateTotalDeductions deductions == 0 ->
  let r := calculateCompleteTax incomeDetails deductions false in
  taxableIncome r == 1200000
  /\ taxBeforeRelief r == 3449989 # 20
  /\ surcharge r == 0
  /\ educationCess r == 3449989 # 500
  /\ totalTaxLiability r == 44849857 # 250.
Proof.
  intros Hs He Hg Hh Hc Ho Hd. simpl.
  assert (Ei : calculateTotalIncome incomeDetails == 1200000).
  { unfold calculateTotalIncome. rewrite Hs, He, Hh, Hc, Ho. simpl. lra. }
  set (ti := calculateTotalIncome incomeDetails) in *.
  set (td := calculateTotalDeductions deductions) in *.
  assert (E : Qmax (ti - td) 0 == 1200000).
  { rewrite Q.max_l by lra. lra. }
  assert (Etax : calculateTax (Qmax (ti - td) 0) false == 3449989 # 20).
  { rewrite (calculateTax_proper _ _ false E). vm_compute. reflexivity. }
  rewrite calculateSurcharge_low by (rewrite E; discriminate).
  unfold calculateEducationCess. rewrite Etax.
  repeat split; try done; vm_compute; reflexivity.
Qed.

(** With the table that the source keeps in a comment, the income of the
    worked example is taxed 172,500. *)
Lemma commented_table_example :
  tax_over TAX_SLABS_OLD_commented 1200000 == 172500.
Proof. vm_compute. reflexivity. Qed.

End TaxTheorems.

(** C1. One employer with gross salary 1,200,000, every other income
    sub-record disabled, zero deductions, old regime: the code returns
    taxableIncome 1,200,000 and surcharge 0, but taxBeforeRelief
    172,499.45 (not 172,500), educationCess 6,899.978 (not 6,900) and
    totalTaxLiability 179,399.428 (not 179,400): each slab of the table in
    force starts one unit above the end of the previous one, so one unit of
    income per boundary is left untaxed. *)
Theorem C1_calculateCompleteTax_example_value :
  let r := TaxCalculator.calculateCompleteTax income_one_employer zero_deductions false in
  taxableIncome r == 1200000 /\
  taxBeforeRelief r == 3449989 # 20 /\
  surcharge r == 0 /\
  educationCess r == 3449989 # 500 /\
  totalTaxLiability r == 44849857 # 250 /\
  ~ taxBeforeRelief r == 172500 /\
  ~ educationCess r == 6900 /\
  ~ totalTaxLiability r == 179400.
Proof. vm_compute. repeat split; discriminate. Qed.

(** C3. Under the new regime the result of [calculateCompleteTax] has
    totalDeductions 0, whatever the deductions argument holds; the whole
    result is the same for any two deductions arguments. *)
Theorem C3_new_regime_totalDeductions_zero :
  forall (incomeDetails : IncomeDetails) (deductions : Deductions),
    totalDeductions
      (TaxCalculator.calculateCompleteTax incomeDetails deductions true) = 0
    /\
    forall deductions' : Deductions,
      TaxCalculator.calculateCompleteTax incomeDetails deductions true
      = TaxCalculator.calculateCompleteTax incomeDetails deductions' true.
Proof.
  intros incomeDetails deductions. split.
  - reflexivity.
  - intros deductions'. unfold TaxCalculator.calculateCompleteTax. reflexivity.
Qed.

(** C4. [calculateTotalDeductions] is the sum of the eight 80C fields
    capped at 150,000, plus the four 80D fields, the 80E, 80TTA and 80U
    fields and the qualifying amounts of the donations; the 80C part is at
    most 150,000. *)
Theorem C4_calculateTotalDeductions_cap :
  forall deductions : Deductions,
    let c := section80C deductions in
    let d := section80D deductions in
    let o := otherDeductions deductions in
    let sum80C :=
      Section80C.lifeInsurance c + Section80C.epf c + Section80C.ppf c
      + Section80C.elss c + Section80C.nsc c + Section80C.homeLoanPrincipal c
      + Section80C.tuitionFees c + Section80C.other80C c in
    let sum80D :=
      Section80D.healthInsuranceSelf d + Section80D.healthInsuranceFamily d
      + Section80D.healthInsuranceParents d + Section80D.preventiveHealthCheckup d in
    TaxCalculator.calculateTotalDeductions deductions
    == Qmin sum80C 150000 + sum80D
       + OtherDeductions.section80E o + OtherDeductions.section80TTA o
       + OtherDeductions.section80U o
       + sum_of Donation.qualifyingAmount (OtherDeductions.section80G o)
    /\ Qmin sum80C 150000 <= 150000.
Proof.
  intros deductions c d o sum80C sum80D. split.
  - unfold TaxCalculator.calculateTotalDeductions.
    rewrite (fold_left_add Donation.qualifyingAmount). simpl.
    fold c d o.
    assert (E : 0 + Section80C.lifeInsurance c + Section80C.epf c + Section80C.ppf c
                + Section80C.elss c + Section80C.nsc c + Section80C.homeLoanPrincipal c
                + Section80C.tuitionFees c + Section80C.other80C c == sum80C)
      by (unfold sum80C; ring).
    rewrite E. unfold sum80D. ring.
  - apply Q.le_min_r.
Qed.

(** C5. For both regimes [calculateTax] is non-decreasing in the taxable
    income, and it is continuous at every income, the slab boundaries
    among them: there is no jump. *)
Theorem C5_calculateTax_monotone_continuous :
  forall regime : bool,
    (forall x y : Q,
        x <= y ->
        TaxCalculator.calculateTax x regime <= TaxCalculator.calculateTax y regime)
    /\
    (forall b eps : Q,
        0 < eps ->
        exists delta : Q,
          0 < delta /\
          forall x : Q,
            Qabs (x - b) < delta ->
            Qabs (TaxCalculator.calculateTax x regime
                  - TaxCalculator.calculateTax b regime) < eps).
Proof.
  intros regime. split.
  - intros x y Hxy. by apply calculateTax_mono.
  - intros b eps Heps. exists eps. split; [done|].
    intros x Hx. apply Qabs_Qlt_condition in Hx. apply Qabs_Qlt_condition.
    destruct (Qlt_le_dec x b) as [Hlt|Hle].
    + pose proof (calculateTax_mono x b regime (Qlt_le_weak _ _ Hlt)).
      pose proof (calculateTax_slope x b regime (Qlt_le_weak _ _ Hlt)).
      lra.
    + pose proof (calculateTax_mono b x regime Hle).
      pose proof (calculateTax_slope b x regime Hle).
      lra.
Qed.

(** C5 across the second slab boundary of the old regime, and at the
    first one. *)
Lemma C5_witness :
  TaxCalculator.calculateTax 500000 false <= TaxCalculator.calculateTax 500001 false
  /\
  exists delta : Q,
    0 < delta /\
    forall x : Q,
      Qabs (x - 250000) < delta ->
      Qabs (TaxCalculator.calculateTax x false
            - TaxCalculator.calculateTax 250000 false) < 1 # 100.
Proof.
  split.
  - apply (proj1 (C5_calculateTax_monotone_continuous false) 500000 500001).
    vm_compute. discriminate.
  - apply (proj2 (C5_calculateTax_monotone_continuous false) 250000 (1 # 100)).
    vm_compute. reflexivity.
Defined.

(** C10. In the result of [calculateCompleteTax], totalIncome is
    [calculateTotalIncome] of the income, totalDeductions is
    [calculateTotalDeductions] of the deductions (0 under the new regime),
    and taxableIncome is max(totalIncome - totalDeductions, 0): the
    difference when the deductions do not exceed the income, and never
    negative.  When under the old regime the deductions exceed the
    income, taxableIncome, taxBeforeRelief, surcharge, educationCess and
    totalTaxLiability are all 0. *)
Theorem C10_taxableIncome_floor :
  forall (incomeDetails : IncomeDetails) (deductions : Deductions),
    (forall useNewRegime : bool,
        let r := TaxCalculator.calculateCompleteTax incomeDetails deductions useNewRegime in
        let ti := TaxCalculator.calculateTotalIncome incomeDetails in
        let td := if useNewRegime then 0
                  else TaxCalculator.calculateTotalDeductions deductions in
        totalIncome r = ti
        /\ totalDeductions r = td
        /\ taxableIncome r = Qmax (ti - td) 0
        /\ taxableIncome r == Qmax (totalIncome r - totalDeductions r) 0
        /\ 0 <= taxableIncome r
        /\ (td <= ti -> taxableIncome r == ti - td))
    /\
    (TaxCalculator.calculateTotalIncome incomeDetails
       < TaxCalculator.calculateTotalDeductions deductions ->
     let r := TaxCalculator.calculateCompleteTax incomeDetails deductions false in
     taxableIncome r == 0 /\ taxBeforeRelief r == 0 /\ surcharge r == 0
     /\ educationCess r == 0 /\ totalTaxLiability r == 0).
Proof.
  intros incomeDetails deductions. split.
  - intros useNewRegime r ti td.
    split; [reflexivity|]. split; [reflexivity|]. split; [reflexivity|].
    split; [reflexivity|]. split; [apply Q.le_max_r|].
    intros Hle. unfold r. cbn [TaxCalculator.calculateCompleteTax taxableIncome].
    fold ti td. apply Q.max_l. lra.
  - intros Hlt. simpl.
    set (ti := TaxCalculator.calculateTotalIncome incomeDetails) in *.
    set (td := TaxCalculator.calculateTotalDeductions deductions) in *.
    assert (E : Qmax (ti - td) 0 == 0) by (apply Q.max_r; lra).
    pose proof (calculateTax_zero _ false E) as Etax.
    rewrite calculateSurcharge_low by (rewrite E; discriminate).
    unfold TaxCalculator.calculateEducationCess.
    repeat split; try done; rewrite Etax; reflexivity.
Qed.

(** C10 on an income of 1,200,000 with deductions of 175,000, where the
    taxable income is the difference 1,025,000, and on an income of
    100,000 with the same deductions, where everything is 0. *)
Lemma C10_witness :
  (let r := TaxCalculator.calculateCompleteTax income_one_employer deductions_large false in
   totalIncome r == 1200000 /\ totalDeductions r == 175000
   /\ taxableIncome r == 1025000)
  /\
  (let r := TaxCalculator.calculateCompleteTax income_small deductions_large false in
   taxableIncome r == 0 /\ taxBeforeRelief r == 0 /\ surcharge r == 0
   /\ educationCess r == 0 /\ totalTaxLiability r == 0).
Proof.
  split.
  - destruct (proj1 (C10_taxableIncome_floor income_one_employer deductions_large) false)
      as (Hi & Hd & _ & _ & _ & Ht).
    cbv zeta in Hi, Hd, Ht |- *. rewrite Hi, Hd, Ht.
    + repeat split; vm_compute; reflexivity.
    + vm_compute. discriminate.
  - apply (proj2 (C10_taxableIncome_floor income_small deductions_large)).
    vm_compute. reflexivity.
Defined.


Close Scope Q_scope.

(** * Part III: the record store *)

Section StoreLemmas.
Context {J : JSON}.
Import ITRStorage.

Lemma load_eq (w : World) :
  load w =
  match Storage.getItem STORAGE_KEY (localStorage w) with
  | Some (String c text) =>
      match JSON_parse (String c text) with
      | Some v => (Ok v, w)
      | None => (Ok (VObj ∅), set_console (console w ++ ["Failed to load data:"]) w)
      end
  | _ => (Ok (VObj ∅), w)
  end.
Proof.
  unfold load, try_catch, bind, localStorage_getItem, JSON_parse_or_throw.
  destruct (Storage.getItem _ _) as [[|c text]|]; try reflexivity.
  destruct (JSON_parse _); reflexivity.
Qed.

(** [load] never throws, and it leaves everything but the console as it
    was. *)
Lemma load_ok (w : World) : (load w).1 = Ok (snapshot w).
Proof.
  unfold snapshot. rewrite load_eq.
  destruct (Storage.getItem _ _) as [[|c text]|]; try reflexivity.
  destruct (JSON_parse _); reflexivity.
Qed.

Lemma load_world (w : World) :
  exists c, (load w).2 = set_console c w.
Proof.
  rewrite load_eq.
  destruct (Storage.getItem _ _) as [[|c text]|]; simpl;
    try (exists (console w); by destruct w).
  destruct (JSON_parse _); simpl; [exists (console w); by destruct w | eauto].
Qed.

Lemma load_pair (w : World) :
  exists c, load w = (Ok (snapshot w), set_console c w).
Proof.
  destruct (load_world w) as [c Hc]. exists c.
  rewrite <- Hc, <- load_ok. by destruct (load w).
Qed.

(** The snapshot depends on the stored items only. *)
Lemma snapshot_items (w w' : World) :
  Storage.items (localStorage w) = Storage.items (localStorage w') ->
  snapshot w = snapshot w'.
Proof.
  intros E. unfold snapshot. rewrite !load_eq. unfold Storage.getItem. rewrite E.
  destruct (_ !! _) as [[|c text]|]; try reflexivity.
  destruct (JSON_parse _); reflexivity.
Qed.

Lemma snapshot_empty (w : World) :
  Storage.getItem STORAGE_KEY (localStorage w) = None -> snapshot w = VObj ∅.
Proof. intros E. unfold snapshot. rewrite load_eq, E. reflexivity. Qed.

Lemma snapshot_stored (w : World) (text : string) (v : value) :
  Storage.getItem STORAGE_KEY (localStorage w) = Some text ->
  text ≠ EmptyString -> JSON_parse text = Some v ->
  snapshot w = v.
Proof.
  intros E Hne Hp. unfold snapshot. rewrite load_eq, E.
  destruct text as [|c text]; [done|]. by rewrite Hp.
Qed.

(** The two outcomes of [save]. *)
Lemma save_accepted (data : value) (w : World) :
  let merged := merged_of data w in
  let text := JSON_stringify merged in
  Storage.accepts STORAGE_KEY text (localStorage w) = true ->
  exists c,
    save data w =
    (Ok tt,
     mkWorld (Storage.mk (<[STORAGE_KEY := text]> (Storage.items (localStorage w)))
                         (Storage.quota (localStorage w)))
             c (now w) (timers w) (next_timer w) (autoSaveTimer w) (listeners w)
             (calls w ++ map (fun callback => (callback, merged)) (listeners w))).
Proof.
  intros merged text Hacc. destruct (load_pair w) as [c Hl]. exists c.
  unfold save, try_catch, bind. rewrite Hl.
  unfold localStorage_setItem, Storage.setItem. simpl.
  fold (merged_of data w). fold merged. fold text. rewrite Hacc. reflexivity.
Qed.

Lemma save_rejected (data : value) (w : World) :
  Storage.accepts STORAGE_KEY (JSON_stringify (merged_of data w)) (localStorage w) = false ->
  save data w =
  (Ok tt, set_console (console (load w).2 ++ ["Failed to save data:"]) w).
Proof.
  intros Hacc. destruct (load_pair w) as [c Hl].
  unfold save, try_catch, bind. rewrite Hl.
  unfold localStorage_setItem, Storage.setItem. simpl.
  fold (merged_of data w). rewrite Hacc. by destruct w.
Qed.

Lemma save_never_throws (data : value) (w : World) : (save data w).1 = Ok tt.
Proof.
  destruct (Storage.accepts STORAGE_KEY (JSON_stringify (merged_of data w))
                            (localStorage w)) eqn:Hacc.
  - destruct (save_accepted data w Hacc) as [c ->]. reflexivity.
  - by rewrite save_rejected.
Qed.

End StoreLemmas.

Section StoreMerge.
Context {J : JSON}.
Import ITRStorage.

Lemma own_props_merged (data : value) (w : World) :
  own_props (merged_of data w) = own_props data ∪ own_props (snapshot w).
Proof. reflexivity. Qed.

Lemma merged_section_eq (section : string) (x : value) (w : World) :
  own_props (merged_of (section_only section x) w) !! section = Some x.
Proof.
  rewrite own_props_merged. apply lookup_union_Some_l.
  unfold section_only. simpl. apply lookup_singleton_eq.
Qed.

Lemma merged_section_ne (section k : string) (x : value) (w : World) :
  k ≠ section ->
  own_props (merged_of (section_only section x) w) !! k
  = own_props (snapshot w) !! k.
Proof.
  intros Hne. rewrite own_props_merged. apply lookup_union_r.
  unfold section_only. simpl. by apply lookup_singleton_ne.
Qed.

(** A save that goes through leaves the merged snapshot persisted, and
    every listener has been called with it. *)
Lemma save_persisted (data : value) (w : World) :
  persists data w ->
  let w' := (save data w).2 in
  snapshot w' = merged_of data w
  /\ Storage.getItem STORAGE_KEY (localStorage w')
     = Some (JSON_stringify (merged_of data w))
  /\ calls w' = calls w ++ map (fun callback => (callback, merged_of data w)) (listeners w).
Proof.
  intros (Hacc & Hne & Hparse). destruct (save_accepted data w Hacc) as [c ->].
  simpl. split_and!; [|apply lookup_insert_eq|reflexivity].
  eapply snapshot_stored; [apply lookup_insert_eq|done|done].
Qed.

Lemma load_persisted (data : value) (w : World) :
  persists data w -> (load (save data w).2).1 = Ok (merged_of data w).
Proof. intros Hp. rewrite load_ok. f_equal. by apply save_persisted. Qed.

End StoreMerge.

(** C2. Two saves of different sections leave both values in the
    persisted snapshot, and two saves of the same section leave the second
    value; in both cases every other key is as it was before.  The saves
    are taken to go through ([persists]): the substrate accepts each write
    and the text written reads back. *)
Theorem C2_save_shallow_merge :
  forall (J : JSON) (w : World) (sectionA sectionB : string) (x y x1 x2 : value),
    (sectionA ≠ sectionB ->
     let w1 := (ITRStorage.save (section_only sectionA x) w).2 in
     let w2 := (ITRStorage.save (section_only sectionB y) w1).2 in
     ITRStorage.persists (section_only sectionA x) w ->
     ITRStorage.persists (section_only sectionB y) w1 ->
     exists m : gmap string value,
       (ITRStorage.load w2).1 = Ok (VObj m)
       /\ m !! sectionA = Some x
       /\ m !! sectionB = Some y
       /\ forall k, k ≠ sectionA -> k ≠ sectionB ->
                    m !! k = own_props (ITRStorage.snapshot w) !! k)
    /\
    (let w1 := (ITRStorage.save (section_only sectionA x1) w).2 in
     let w2 := (ITRStorage.save (section_only sectionA x2) w1).2 in
     ITRStorage.persists (section_only sectionA x1) w ->
     ITRStorage.persists (section_only sectionA x2) w1 ->
     exists m : gmap string value,
       (ITRStorage.load w2).1 = Ok (VObj m)
       /\ m !! sectionA = Some x2
       /\ forall k, k ≠ sectionA ->
                    m !! k = own_props (ITRStorage.snapshot w) !! k).
Proof.
  intros J w sectionA sectionB x y x1 x2. split.
  - intros Hne w1 w2 H1 H2.
    exists (own_props (ITRStorage.merged_of (section_only sectionB y) w1)).
    pose proof (save_persisted _ _ H1) as (Hs1 & _ & _). fold w1 in Hs1.
    split_and!.
    + unfold w2. by rewrite load_persisted.
    + rewrite merged_section_ne by done. rewrite Hs1. apply merged_section_eq.
    + apply merged_section_eq.
    + intros k HkA HkB. rewrite merged_section_ne by done.
      rewrite Hs1. by apply merged_section_ne.
  - intros w1 w2 H1 H2.
    exists (own_props (ITRStorage.merged_of (section_only sectionA x2) w1)).
    pose proof (save_persisted _ _ H1) as (Hs1 & _ & _). fold w1 in Hs1.
    split_and!.
    + unfold w2. by rewrite load_persisted.
    + apply merged_section_eq.
    + intros k HkA. rewrite merged_section_ne by done.
      rewrite Hs1. by apply merged_section_ne.
Qed.

(** C2 on a fresh store, with the reference [JSON]. *)
Lemma C2_witness :
  let w := initial_world 4096 in
  (exists m : gmap string value,
      (ITRStorage.load (J := RefJSON.ref)
         (ITRStorage.save (J := RefJSON.ref) (section_only "incomeDetails" income_sample)
            (ITRStorage.save (J := RefJSON.ref) (section_only "personalDetails" personal_sample) w).2).2).1
      = Ok (VObj m)
      /\ m !! "personalDetails" = Some personal_sample
      /\ m !! "incomeDetails" = Some income_sample
      /\ forall k, k ≠ "personalDetails" -> k ≠ "incomeDetails" ->
                   m !! k = own_props (ITRStorage.snapshot (J := RefJSON.ref) w) !! k)
  /\
  (exists m : gmap string value,
      (ITRStorage.load (J := RefJSON.ref)
         (ITRStorage.save (J := RefJSON.ref) (section_only "personalDetails" personal_sample')
            (ITRStorage.save (J := RefJSON.ref) (section_only "personalDetails" personal_sample) w).2).2).1
      = Ok (VObj m)
      /\ m !! "personalDetails" = Some personal_sample'
      /\ forall k, k ≠ "personalDetails" ->
                   m !! k = own_props (ITRStorage.snapshot (J := RefJSON.ref) w) !! k).
Proof.
  intros w. split.
  - apply (proj1 (C2_save_shallow_merge RefJSON.ref w "personalDetails" "incomeDetails"
                    personal_sample income_sample personal_sample personal_sample')).
    + discriminate.
    + vm_compute. repeat split; discriminate.
    + vm_compute. repeat split; discriminate.
  - apply (proj2 (C2_save_shallow_merge RefJSON.ref w "personalDetails" "incomeDetails"
                    personal_sample income_sample personal_sample personal_sample')).
    + vm_compute. repeat split; discriminate.
    + vm_compute. repeat split; discriminate.
Defined.

Section StoreImport.
Context {J : JSON}.
Import ITRStorage.


Lemma import_invalid (jsonData : string) (w : World) :
  JSON_parse jsonData = None ->
  import jsonData w
  = (Ok false, set_console (console w ++ ["Failed to import data:"]) w).
Proof.
  intros Hp. unfold import, try_catch, bind, JSON_parse_or_throw.
  rewrite Hp. reflexivity.
Qed.

Lemma import_valid (jsonData : string) (data : value) (w : World) :
  JSON_parse jsonData = Some data ->
  import jsonData w = (Ok true, (save data w).2).
Proof.
  intros Hp. unfold import, try_catch, bind, JSON_parse_or_throw.
  rewrite Hp. simpl.
  pose proof (save_never_throws data w) as Hs.
  destruct (save data w) as [r w']. simpl in Hs. subst r. reflexivity.
Qed.

End StoreImport.



(** C9, as stated, fails: when the substrate rejects the write, no
    listener has been called. *)
Lemma C9_counterexample :
  ~ (forall (w : World) (data : value),
        Storage.accepts STORAGE_KEY
          (JSON_stringify (JSON := RefJSON.ref)
             (ITRStorage.merged_of (J := RefJSON.ref) data w))
          (localStorage w) = false ->
        let w' := (ITRStorage.save (J := RefJSON.ref) data w).2 in
        localStorage w' = localStorage w
        /\ calls w'
           = calls w
             ++ map (fun callback => (callback, ITRStorage.merged_of (J := RefJSON.ref) data w))
                    (listeners w)).
Proof.
  intros H.
  specialize (H world_full (section_only "personalDetails" personal_sample)).
  assert (Hrej : Storage.accepts STORAGE_KEY
                   (JSON_stringify (JSON := RefJSON.ref)
                      (ITRStorage.merged_of (J := RefJSON.ref)
                         (section_only "personalDetails" personal_sample) world_full))
                   (localStorage world_full) = false)
    by (vm_compute; reflexivity).
  destruct (H Hrej) as [_ Hcalls]. vm_compute in Hcalls. discriminate Hcalls.
Qed.

(** C9, amended. When the substrate rejects the write, [save] returns
    normally, the stored items and the persisted snapshot are unchanged,
    the failure is logged on the console, and no listener is called: the
    listeners are called only after the write has been accepted. *)
Theorem C9_rejected_write :
  forall (J : JSON) (w : World) (data : value),
    Storage.accepts STORAGE_KEY (JSON_stringify (ITRStorage.merged_of data w))
                    (localStorage w) = false ->
    let w' := (ITRStorage.save data w).2 in
    (ITRStorage.save data w).1 = Ok tt
    /\ localStorage w' = localStorage w
    /\ ITRStorage.snapshot w' = ITRStorage.snapshot w
    /\ calls w' = calls w
    /\ console w' = console (ITRStorage.load w).2 ++ ["Failed to save data:"].
Proof.
  intros J w data Hrej. rewrite (save_rejected _ _ Hrej). simpl.
  split_and!; try reflexivity. by apply snapshot_items.
Qed.

(** C9 on a store without room. *)
Lemma C9_witness :
  let w := world_full in
  let data := section_only "personalDetails" personal_sample in
  let w' := (ITRStorage.save (J := RefJSON.ref) data w).2 in
  (ITRStorage.save (J := RefJSON.ref) data w).1 = Ok tt
  /\ localStorage w' = localStorage w
  /\ ITRStorage.snapshot (J := RefJSON.ref) w' = ITRStorage.snapshot (J := RefJSON.ref) w
  /\ calls w' = calls w
  /\ console w' = console (ITRStorage.load (J := RefJSON.ref) w).2 ++ ["Failed to save data:"].
Proof.
  apply (C9_rejected_write RefJSON.ref world_full
           (section_only "personalDetails" personal_sample)).
  vm_compute. reflexivity.
Defined.

Section StoreCompletion.
Context {J : JSON}.
Import ITRStorage.

Lemma getCompletionStatus_object (w : World) (m : gmap string value) :
  (load w).1 = Ok (VObj m) ->
  (getCompletionStatus w).1
  = Ok {| CompletionStatus.personalDetails := truthy_opt (m !! "personalDetails");
          CompletionStatus.incomeDetails := truthy_opt (m !! "incomeDetails");
          CompletionStatus.deductions := truthy_opt (m !! "deductions");
          CompletionStatus.taxSummary := truthy_opt (m !! "taxSummary") |}.
Proof.
  intros Hl. unfold getCompletionStatus, bind, lift.
  destruct (load w) as [r w1]. simpl in Hl. subst r. reflexivity.
Qed.


Lemma truthy_opt_section (section name : string) (x : value) :
  truthy x = true ->
  truthy_opt (({[ section := x ]} ∪ ∅ : gmap string value) !! name)
  = bool_decide (section = name).
Proof.
  intros Hx. rewrite (right_id_L ∅ (∪)).
  rewrite lookup_singleton. case_decide; case_bool_decide; done.
Qed.

End StoreCompletion.

(** C8, as stated, fails: after the import of a document whose
    [personalDetails] is [null] the key is present in the persisted
    snapshot, and its flag is false. *)
Lemma C8_counterexample :
  ~ (forall (w : World) (m : gmap string value),
        (ITRStorage.load (J := RefJSON.ref) w).1 = Ok (VObj m) ->
        exists st : CompletionStatus.t,
          (ITRStorage.getCompletionStatus (J := RefJSON.ref) w).1 = Ok st
          /\ (CompletionStatus.personalDetails st = true <-> is_Some (m !! "personalDetails"))
          /\ (CompletionStatus.incomeDetails st = true <-> is_Some (m !! "incomeDetails"))
          /\ (CompletionStatus.deductions st = true <-> is_Some (m !! "deductions"))
          /\ (CompletionStatus.taxSummary st = true <-> is_Some (m !! "taxSummary"))).
Proof.
  intros H.
  set (text := RefJSON.stringify (section_only "personalDetails" VNull)).
  set (w := (ITRStorage.import (J := RefJSON.ref) text (initial_world 4096)).2).
  destruct (H w {[ "personalDetails" := VNull ]}) as (st & Hst & Hp & _).
  { vm_compute. reflexivity. }
  vm_compute in Hst. injection Hst as <-. simpl in Hp.
  destruct Hp as [_ Hp]. discriminate Hp. by eexists.
Qed.

(** C8, amended. When the persisted snapshot is an object, the flag of
    each of the four sections is true iff the section key is present with
    a truthy value (every object and array is truthy; [null], [false], 0
    and the empty string are not).  On an empty store the four flags are
    false, and after saving one section with a truthy value to an empty
    store only the flag of that section is true. *)
Theorem C8_completion_status :
  forall (J : JSON) (w : World),
    (forall m : gmap string value,
        (ITRStorage.load w).1 = Ok (VObj m) ->
        exists st : CompletionStatus.t,
          (ITRStorage.getCompletionStatus w).1 = Ok st
          /\ (CompletionStatus.personalDetails st = true
              <-> exists x, m !! "personalDetails" = Some x /\ truthy x = true)
          /\ (CompletionStatus.incomeDetails st = true
              <-> exists x, m !! "incomeDetails" = Some x /\ truthy x = true)
          /\ (CompletionStatus.deductions st = true
              <-> exists x, m !! "deductions" = Some x /\ truthy x = true)
          /\ (CompletionStatus.taxSummary st = true
              <-> exists x, m !! "taxSummary" = Some x /\ truthy x = true))
    /\
    (Storage.getItem STORAGE_KEY (localStorage w) = None ->
     (ITRStorage.getCompletionStatus w).1
     = Ok (CompletionStatus.mk false false false false)
     /\
     forall (section : string) (x : value),
       truthy x = true ->
       ITRStorage.persists (section_only section x) w ->
       (ITRStorage.getCompletionStatus
          (ITRStorage.save (section_only section x) w).2).1
       = Ok (CompletionStatus.mk
               (bool_decide (section = "personalDetails"))
               (bool_decide (section = "incomeDetails"))
               (bool_decide (section = "deductions"))
               (bool_decide (section = "taxSummary")))).
Proof.
  intros J w. split.
  - intros m Hl. eexists. split; [by apply getCompletionStatus_object|]. simpl.
    assert (Hflag : forall o : option value,
               truthy_opt o = true <-> exists x, o = Some x /\ truthy x = true).
    { intros [x|]; simpl; split; try done.
      - intros Hx. by exists x.
      - by intros (? & [= <-] & ?).
      - by intros (? & ? & ?). }
    split_and!; apply Hflag.
  - intros Hempty. split.
    + rewrite (getCompletionStatus_object w ∅); [reflexivity|].
      rewrite load_ok. f_equal. by apply snapshot_empty.
    + intros section x Hx Hp.
      rewrite (getCompletionStatus_object _ ({[ section := x ]} ∪ ∅)).
      * by rewrite !truthy_opt_section.
      * rewrite (load_persisted _ _ Hp). unfold ITRStorage.merged_of.
        rewrite (snapshot_empty _ Hempty). reflexivity.
Qed.

(** C8 on a store that holds the personal section and on a fresh one. *)
Lemma C8_witness :
  let w := world_with_personal in
  (exists st : CompletionStatus.t,
      (ITRStorage.getCompletionStatus (J := RefJSON.ref) w).1 = Ok st
      /\ (CompletionStatus.personalDetails st = true
          <-> exists x, ({[ "personalDetails" := personal_sample ]} : gmap string value)
                          !! "personalDetails" = Some x /\ truthy x = true)
      /\ (CompletionStatus.incomeDetails st = true
          <-> exists x, ({[ "personalDetails" := personal_sample ]} : gmap string value)
                          !! "incomeDetails" = Some x /\ truthy x = true)
      /\ (CompletionStatus.deductions st = true
          <-> exists x, ({[ "personalDetails" := personal_sample ]} : gmap string value)
                          !! "deductions" = Some x /\ truthy x = true)
      /\ (CompletionStatus.taxSummary st = true
          <-> exists x, ({[ "personalDetails" := personal_sample ]} : gmap string value)
                          !! "taxSummary" = Some x /\ truthy x = true))
  /\
  ((ITRStorage.getCompletionStatus (J := RefJSON.ref) (initial_world 4096)).1
   = Ok (CompletionStatus.mk false false false false)
   /\
   (ITRStorage.getCompletionStatus (J := RefJSON.ref)
      (ITRStorage.save (J := RefJSON.ref) (section_only "deductions" income_sample)
         (initial_world 4096)).2).1
   = Ok (CompletionStatus.mk false false true false)).
Proof.
  intros w. split.
  - apply (proj1 (C8_completion_status RefJSON.ref w)). vm_compute. reflexivity.
  - destruct (proj2 (C8_completion_status RefJSON.ref (initial_world 4096)))
      as [Hempty Hsave]; [reflexivity|].
    split; [exact Hempty|].
    apply (Hsave "deductions" income_sample); [reflexivity|].
    vm_compute. repeat split; discriminate.
Defined.

Section StoreDebounce.
Context {J : JSON}.
Import ITRStorage.

(** [save] neither reads nor changes the clock, the timers and the
    remembered timer. *)
Lemma save_frame data ls c n ts nx a l cs n' ts' nx' a' :
  let w' := (save data (mkWorld ls c n ts nx a l cs)).2 in
  (save data (mkWorld ls c n' ts' nx' a' l cs)).2
  = mkWorld (localStorage w') (console w') n' ts' nx' a' (listeners w') (calls w').
Proof.
  unfold save, load, try_catch, bind, localStorage_getItem, JSON_parse_or_throw,
    localStorage_setItem, Storage.setItem, notifyListeners, console_error,
    Storage.getItem, ret, throw; simpl.
  destruct (Storage.items ls !! STORAGE_KEY) as [[|c0 text]|]; simpl;
    try destruct (JSON_parse _); simpl;
    destruct (Storage.accepts _ _ _); reflexivity.
Qed.

Lemma save_schedule (data : value) (w : World) :
  let w' := (save data w).2 in
  now w' = now w /\ timers w' = timers w /\ next_timer w' = next_timer w
  /\ autoSaveTimer w' = autoSaveTimer w /\ listeners w' = listeners w.
Proof.
  destruct w as [ls c n ts nx a l cs].
  pose proof (save_frame data ls c n ts nx a l cs n ts nx a) as E. simpl in E.
  simpl. rewrite E. simpl. split_and!; try reflexivity.
  destruct (Storage.accepts STORAGE_KEY
              (JSON_stringify (merged_of data (mkWorld ls c n ts nx a l cs))) ls) eqn:Hacc.
  - by destruct (save_accepted _ _ Hacc) as [c' ->].
  - by rewrite (save_rejected _ _ Hacc).
Qed.

(** In a well-formed world [autoSave] leaves its own timer as the only
    pending one. *)
Lemma World_wf_pending (w : World) :
  World_wf w ->
  match autoSaveTimer w with
  | Some t => filter (fun x => timer_id x ≠ t) (timers w) = []
  | None => timers w = []
  end.
Proof.
  unfold World_wf. intros Hwf. destruct (autoSaveTimer w) as [t|].
  - induction Hwf as [|x ts Hx _ IH]; [reflexivity|].
    rewrite filter_cons. rewrite decide_False; [exact IH|].
    intros Hne. apply Hne. by injection Hx.
  - destruct Hwf as [|x ts Hx _]; [reflexivity | discriminate Hx].
Qed.

Lemma autoSave_wf (data : value) (w : World) :
  World_wf w ->
  autoSave data w
  = (Ok tt,
     mkWorld (localStorage w) (console w) (now w)
             [mkTimer (next_timer w) (now w + AUTO_SAVE_INTERVAL) data]
             (Pos.succ (next_timer w)) (Some (next_timer w))
             (listeners w) (calls w)).
Proof.
  intros Hwf. pose proof (World_wf_pending w Hwf) as Hp.
  unfold autoSave, bind, get_autoSaveTimer, clearTimeout, setTimeout,
    put_autoSaveTimer, ret. simpl.
  destruct (autoSaveTimer w) as [t|]; simpl; rewrite Hp; reflexivity.
Qed.

(** Time passing over a world with one pending timer. *)
Lemma advance_one_later (ms : nat) (tm : Timer) ls c n nx a l cs :
  n + ms < timer_due tm ->
  advance ms (mkWorld ls c n [tm] nx a l cs)
  = mkWorld ls c (n + ms) [tm] nx a l cs.
Proof.
  intros Hlt. unfold advance. simpl.
  rewrite !filter_cons, !filter_nil.
  rewrite decide_False by lia. rewrite decide_True by lia. reflexivity.
Qed.

Lemma advance_one_due (ms : nat) (tm : Timer) ls c n nx a l cs :
  timer_due tm ≤ n + ms ->
  advance ms (mkWorld ls c n [tm] nx a l cs)
  = (save (timer_data tm) (mkWorld ls c (n + ms) [] nx a l cs)).2.
Proof.
  intros Hle. unfold advance. simpl.
  rewrite !filter_cons, !filter_nil.
  rewrite decide_True by lia. rewrite decide_False by lia. reflexivity.
Qed.

(** Well-formedness is kept by the operations of the store and by the
    passing of time. *)
Lemma World_wf_initial (quota : nat) : World_wf (initial_world quota).
Proof. constructor. Qed.

Lemma World_wf_save (data : value) (w : World) :
  World_wf w -> World_wf (save data w).2.
Proof.
  unfold World_wf. destruct (save_schedule data w) as (_ & -> & _ & -> & _). done.
Qed.

Lemma World_wf_autoSave (data : value) (w : World) :
  World_wf w -> World_wf (autoSave data w).2.
Proof.
  intros Hwf. rewrite (autoSave_wf _ _ Hwf). unfold World_wf. simpl.
  by repeat constructor.
Qed.

Lemma run_timers_schedule (due : list Timer) (w : World) :
  let w' := fold_left run_timer due w in
  timers w' = timers w /\ autoSaveTimer w' = autoSaveTimer w.
Proof.
  revert w. induction due as [|tm due IH]; intros w; simpl; [done|].
  destruct (IH (run_timer w tm)) as [-> ->]. unfold run_timer.
  by destruct (save_schedule (timer_data tm) w) as (_ & -> & _ & -> & _).
Qed.

Lemma World_wf_advance (ms : nat) (w : World) :
  World_wf w -> World_wf (advance ms w).
Proof.
  unfold World_wf, advance. intros Hwf.
  match goal with
  | |- context [fold_left run_timer ?due ?w0] =>
      destruct (run_timers_schedule due w0) as [-> ->]
  end.
  simpl. rewrite Forall_forall in Hwf. apply Forall_forall.
  intros x Hx. apply list_elem_of_filter in Hx as [_ Hx]. by apply Hwf.
Qed.

Lemma World_wf_import (jsonData : string) (w : World) :
  World_wf w -> World_wf (import jsonData w).2.
Proof.
  intros Hwf. destruct (JSON_parse jsonData) as [data|] eqn:Hp.
  - rewrite (import_valid _ _ _ Hp). simpl. by apply World_wf_save.
  - by rewrite (import_invalid _ _ Hp).
Qed.

Lemma World_wf_step (w : World) (e : event) : World_wf w -> World_wf (step w e).
Proof.
  intros Hwf. destruct e as [data|data| |callback|callback|jsonData|ms]; simpl.
  - by apply World_wf_save.
  - by apply World_wf_autoSave.
  - exact Hwf.
  - unfold World_wf. by case_bool_decide.
  - exact Hwf.
  - by apply World_wf_import.
  - by apply World_wf_advance.
Qed.

(** Every world that a history reaches from a fresh page is well
    formed. *)
Lemma World_wf_run (quota : nat) (history : list event) :
  World_wf (run quota history).
Proof.
  unfold run. generalize (World_wf_initial quota).
  generalize (initial_world quota).
  induction history as [|e history IH]; intros w Hwf; simpl; [exact Hwf|].
  apply IH. by apply World_wf_step.
Qed.

End StoreDebounce.



(** The same run, evaluated: after the delay the snapshot holds the
    personal section that was there and the income section of the second
    call, and the listener has been called once more, with that
    snapshot. *)
Example autoSave_run :
  let w := world_with_personal in
  let p1 := section_only "personalDetails" personal_sample' in
  let p2 := section_only "incomeDetails" income_sample in
  let w1 := (ITRStorage.autoSave p1 w).2 in
  let w2 := (ITRStorage.autoSave p2
               (ITRStorage.advance (J := RefJSON.ref) 1200 w1)).2 in
  let wt := ITRStorage.advance (J := RefJSON.ref) 5000 w2 in
  let both : value :=
    VObj {[ "personalDetails" := personal_sample; "incomeDetails" := income_sample ]} in
  ITRStorage.snapshot (J := RefJSON.ref) wt = both
  /\ calls wt = [(7, section_only "personalDetails" personal_sample); (7, both)].
Proof. vm_compute. split; reflexivity. Qed.

(** * Part IV: further properties of the tax engine *)

Open Scope Q_scope.

Section TaxFurther.
Import TaxCalculator.

Lemma sum_of_nonneg {A} (f : A -> Q) (l : list A) :
  Forall (fun a => 0 <= f a) l -> 0 <= sum_of f l.
Proof. induction 1 as [|a l Ha _ IH]; simpl; lra. Qed.

Lemma sum_of_nonneg_all {A} (f : A -> Q) (l : list A) :
  (forall a, 0 <= f a) -> 0 <= sum_of f l.
Proof. intros Hf. apply sum_of_nonneg. apply Forall_forall. intros; apply Hf. Qed.

Lemma slab_tax_nonneg x slab : slab_wf slab -> 0 <= slab_tax x slab.
Proof.
  intros Hwf. unfold slab_tax.
  apply Qle_shift_div_l; [reflexivity|]. rewrite Qmult_0_l.
  apply Qmult_le_0_compat; [by apply slab_amount_nonneg | apply Hwf].
Qed.

Lemma calculateTax_nonneg x regime : 0 <= calculateTax x regime.
Proof.
  unfold calculateTax. rewrite tax_over_sum.
  apply sum_of_nonneg.
  eapply Forall_impl; [apply regime_slabs_wf|].
  intros slab Hwf. by apply slab_tax_nonneg.
Qed.

Lemma Qdiv_100 (q : Q) : q / 100 == q * (1 # 100).
Proof. field. Qed.

Lemma Qle_bool_false (a b : Q) : Qle_bool a b = false -> b < a.
Proof.
  intros H. apply Qnot_le_lt. intros Hle.
  apply Qle_bool_iff in Hle. congruence.
Qed.

End TaxFurther.

(** Case analysis on the tests and the minima of the loop of
    [calculateTax], closing each case by linear arithmetic. *)
Ltac slab_lra := rewrite ?Qdiv_100; lra.

Ltac slab_cases :=
  repeat match goal with
  | |- context [Qlt_le_dec ?a ?b] => destruct (Qlt_le_dec a b); try slab_lra
  | |- context [Qmin ?a ?b] =>
      destruct (Q.min_spec a b) as [[? ->]|[? ->]]; try slab_lra
  end.

Ltac unfold_tax :=
  unfold TaxCalculator.calculateTax, TaxCalculator.tax_over, TAX_SLABS_NEW,
    TAX_SLABS_OLD, TaxCalculator.slab_step, fold_left, Math_min, bound_minus,
    Slab.min, Slab.max, Slab.rate.

(** Case analysis on the bands of [calculateSurcharge]. *)
Ltac surcharge_cases :=
  unfold TaxCalculator.calculateSurcharge;
  repeat match goal with
  | |- context [Qle_bool ?a ?b] =>
      let E := fresh "E" in
      destruct (Qle_bool a b) eqn:E;
      [apply Qle_bool_iff in E | apply Qle_bool_false in E]
  end.

Section TaxFurtherLemmas.
Import TaxCalculator.

Lemma calculateTax_new_le_old (x : Q) : calculateTax x true <= calculateTax x false.
Proof. unfold_tax. slab_cases. Qed.

Lemma calculateSurcharge_mono t t' base base' :
  t <= t' -> 0 <= base -> base <= base' ->
  calculateSurcharge t base <= calculateSurcharge t' base'.
Proof. intros Ht Hb Hbb. surcharge_cases; lra. Qed.

Lemma calculateSurcharge_nonneg t base : 0 <= base -> 0 <= calculateSurcharge t base.
Proof. intros Hb. surcharge_cases; lra. Qed.

(** From a taxable income to the figures of the result. *)
Lemma figures_mono (x y : Q) (regime : bool) :
  x <= y ->
  let tx := calculateTax x regime in
  let ty := calculateTax y regime in
  let sx := calculateSurcharge x tx in
  let sy := calculateSurcharge y ty in
  tx <= ty /\ sx <= sy
  /\ calculateEducationCess (tx + sx) <= calculateEducationCess (ty + sy)
  /\ tx + sx + calculateEducationCess (tx + sx)
     <= ty + sy + calculateEducationCess (ty + sy).
Proof.
  intros Hxy tx ty sx sy.
  pose proof (calculateTax_mono x y regime Hxy) as Ht.
  pose proof (calculateTax_nonneg x regime) as Hn.
  pose proof (calculateSurcharge_mono x y _ _ Hxy Hn Ht) as Hs.
  unfold calculateEducationCess. fold tx ty in Ht, Hn, Hs. fold sx sy in Hs.
  split_and!; lra.
Qed.

Lemma fold_left_add_values (l : list Q) (init : Q) :
  fold_left (fun sum value => sum + value) l init == init + sum_of (fun v => v) l.
Proof. apply (fold_left_add (fun v : Q => v)). Qed.

Lemma calculateTotalIncome_sum (incomeDetails : IncomeDetails) :
  calculateTotalIncome incomeDetails
  == (if SalaryIncome.hasIncome (salaryIncome incomeDetails)
      then sum_of Employer.grossSalary
             (SalaryIncome.employers (salaryIncome incomeDetails))
      else 0)
     + (if HousePropertyIncome.hasIncome (housePropertyIncome incomeDetails)
        then sum_of (fun p => Qmax (property_net p) 0)
               (HousePropertyIncome.properties (housePropertyIncome incomeDetails))
        else 0)
     + (if CapitalGains.hasIncome (capitalGains incomeDetails)
        then CapitalGains.shortTermGains (capitalGains incomeDetails)
             + CapitalGains.longTermGains (capitalGains incomeDetails)
        else 0)
     + (if OtherSources.hasIncome (otherSources incomeDetails)
        then OtherSources.interestIncome (otherSources incomeDetails)
             + OtherSources.dividendIncome (otherSources incomeDetails)
             + OtherSources.otherIncome (otherSources incomeDetails)
        else 0).
Proof.
  unfold calculateTotalIncome.
  destruct (SalaryIncome.hasIncome _), (HousePropertyIncome.hasIncome _),
    (CapitalGains.hasIncome _), (OtherSources.hasIncome _);
    rewrite ?(fold_left_add (fun p => Qmax (property_net p) 0)),
            ?(fold_left_add Employer.grossSalary);
    lra.
Qed.

Lemma calculateTotalDeductions_sum (deductions : Deductions) :
  calculateTotalDeductions deductions
  == Qmin (sum_of (fun v => v) (Object_values_section80C (section80C deductions))) 150000
     + sum_of (fun v => v) (Object_values_section80D (section80D deductions))
     + OtherDeductions.section80E (otherDeductions deductions)
     + OtherDeductions.section80TTA (otherDeductions deductions)
     + OtherDeductions.section80U (otherDeductions deductions)
     + sum_of Donation.qualifyingAmount
         (OtherDeductions.section80G (otherDeductions deductions)).
Proof.
  unfold calculateTotalDeductions.
  rewrite (fold_left_add Donation.qualifyingAmount).
  rewrite !fold_left_add_values.
  assert (E : forall a b, 0 + a == b -> Qmin (0 + a) 150000 == Qmin b 150000).
  { intros a b ->. reflexivity. }
  rewrite (E _ (sum_of (fun v => v) (Object_values_section80C (section80C deductions))))
    by lra.
  lra.
Qed.

End TaxFurtherLemmas.

(** X1. No tax is due up to 250,001 under the old regime and up to 300,001
    under the new one, negative incomes included; the tax is never
    negative. *)
Theorem X1_calculateTax_zero_band :
  forall x : Q,
    (x <= 250001 -> TaxCalculator.calculateTax x false == 0)
    /\ (x <= 300001 -> TaxCalculator.calculateTax x true == 0)
    /\ (forall regime : bool, 0 <= TaxCalculator.calculateTax x regime).
Proof.
  intros x. split_and!.
  - intros Hx. apply Qle_antisym; [|apply calculateTax_nonneg].
    pose proof (calculateTax_mono x 250001 false Hx) as H.
    assert (E : TaxCalculator.calculateTax 250001 false == 0) by (vm_compute; reflexivity).
    lra.
  - intros Hx. apply Qle_antisym; [|apply calculateTax_nonneg].
    pose proof (calculateTax_mono x 300001 true Hx) as H.
    assert (E : TaxCalculator.calculateTax 300001 true == 0) by (vm_compute; reflexivity).
    lra.
  - intros regime. apply calculateTax_nonneg.
Qed.

(** X1 at the ends of the two bands. *)
Lemma X1_witness :
  TaxCalculator.calculateTax 250001 false == 0
  /\ TaxCalculator.calculateTax (-5000) true == 0.
Proof.
  split.
  - apply (proj1 (X1_calculateTax_zero_band 250001)). vm_compute. discriminate.
  - apply (proj1 (proj2 (X1_calculateTax_zero_band (-5000)))). vm_compute. discriminate.
Defined.

(** X2. In the top slab the tax is linear: 112,499.75 plus 30% of the
    income above 1,000,001 under the old regime, 149,999.50 plus 30% of
    the income above 1,500,001 under the new one. *)
Theorem X2_calculateTax_top_slab :
  forall x : Q,
    (1000001 <= x ->
     TaxCalculator.calculateTax x false
     == (11249975 # 100) + (30 # 100) * (x - 1000001))
    /\ (1500001 <= x ->
        TaxCalculator.calculateTax x true
        == (1499995 # 10) + (30 # 100) * (x - 1500001)).
Proof.
  intros x. split; intros Hx; unfold_tax; slab_cases.
Qed.

(** X2 at an income of 2,000,000. *)
Lemma X2_witness :
  TaxCalculator.calculateTax 2000000 false
  == (11249975 # 100) + (30 # 100) * (2000000 - 1000001)
  /\ TaxCalculator.calculateTax 2000000 true
     == (1499995 # 10) + (30 # 100) * (2000000 - 1500001).
Proof.
  split.
  - apply (proj1 (X2_calculateTax_top_slab 2000000)). vm_compute. discriminate.
  - apply (proj2 (X2_calculateTax_top_slab 2000000)). vm_compute. discriminate.
Defined.

(** X3. At the same taxable income the new regime never taxes more than
    the old one; so when the deductions add up to 0 the total liability
    under the new regime is at most the one under the old regime. *)
Theorem X3_new_regime_never_higher :
  (forall x : Q, TaxCalculator.calculateTax x true <= TaxCalculator.calculateTax x false)
  /\
  (forall (incomeDetails : IncomeDetails) (deductions : Deductions),
      TaxCalculator.calculateTotalDeductions deductions == 0 ->
      totalTaxLiability (TaxCalculator.calculateCompleteTax incomeDetails deductions true)
      <= totalTaxLiability (TaxCalculator.calculateCompleteTax incomeDetails deductions false)).
Proof.
  split; [apply calculateTax_new_le_old|].
  intros inc d Hd. simpl.
  set (ti := TaxCalculator.calculateTotalIncome inc) in *.
  set (td := TaxCalculator.calculateTotalDeductions d) in *.
  assert (E : Qmax (ti - td) 0 == Qmax (ti - 0) 0).
  { apply Q.max_compat; [lra | reflexivity]. }
  set (x := Qmax (ti - 0) 0) in *. set (y := Qmax (ti - td) 0) in *.
  pose proof (calculateTax_new_le_old x) as Hno.
  pose proof (calculateTax_proper y x false E) as Ep.
  pose proof (calculateTax_nonneg x true) as Hn.
  assert (Hxy : x <= y) by (rewrite E; apply Qle_refl).
  assert (Hb : TaxCalculator.calculateTax x true <= TaxCalculator.calculateTax y false) by lra.
  pose proof (calculateSurcharge_mono x y _ _ Hxy Hn Hb) as Hs.
  unfold TaxCalculator.calculateEducationCess. lra.
Qed.

(** X3 on the worked example. *)
Lemma X3_witness :
  totalTaxLiability (TaxCalculator.calculateCompleteTax income_one_employer zero_deductions true)
  <= totalTaxLiability (TaxCalculator.calculateCompleteTax income_one_employer zero_deductions false).
Proof.
  apply (proj2 X3_new_regime_never_higher income_one_employer zero_deductions).
  vm_compute. reflexivity.
Defined.

(** X4. Under either regime an increase of the taxable income raises the
    tax by at most 30% of the increase. *)
Theorem X4_marginal_rate :
  forall (x y : Q) (regime : bool),
    x <= y ->
    TaxCalculator.calculateTax y regime - TaxCalculator.calculateTax x regime
    <= (30 # 100) * (y - x).
Proof.
  intros x y [] Hxy; unfold_tax; slab_cases.
Qed.

(** X4 across the boundaries between 400,000 and 1,600,000. *)
Lemma X4_witness :
  TaxCalculator.calculateTax 1600000 true - TaxCalculator.calculateTax 400000 true
  <= (30 # 100) * (1600000 - 400000).
Proof.
  apply (X4_marginal_rate 400000 1600000 true). vm_compute. discriminate.
Defined.

(** X5. For a base tax that is not negative the surcharge lies between 0
    and 37% of the base tax; it is 0 up to a taxable income of 5,000,000
    and 37% of the base tax above 50,000,000; and it does not decrease
    when the taxable income and the base tax grow. *)
Theorem X5_calculateSurcharge_bounds :
  forall t base : Q,
    0 <= base ->
    0 <= TaxCalculator.calculateSurcharge t base
    /\ TaxCalculator.calculateSurcharge t base <= (37 # 100) * base
    /\ (t <= 5000000 -> TaxCalculator.calculateSurcharge t base == 0)
    /\ (50000000 < t -> TaxCalculator.calculateSurcharge t base == (37 # 100) * base)
    /\ (forall t' base' : Q,
           t <= t' -> base <= base' ->
           TaxCalculator.calculateSurcharge t base
           <= TaxCalculator.calculateSurcharge t' base').
Proof.
  intros t base Hb. split; [|split; [|split; [|split]]].
  - surcharge_cases; lra.
  - surcharge_cases; lra.
  - intros Ht. surcharge_cases; lra.
  - intros Ht. surcharge_cases; lra.
  - intros t' base' Ht Hbb. by apply calculateSurcharge_mono.
Qed.

(** X5 at a taxable income of 6,000,000 and a base tax of 1,612,499.45. *)
Lemma X5_witness :
  0 <= TaxCalculator.calculateSurcharge 6000000 (161249945 # 100)
  /\ TaxCalculator.calculateSurcharge 6000000 (161249945 # 100)
     <= (37 # 100) * (161249945 # 100).
Proof.
  destruct (X5_calculateSurcharge_bounds 6000000 (161249945 # 100)) as (H1 & H2 & _).
  - vm_compute. discriminate.
  - by split.
Defined.

(** X6. The tax, the surcharge, the cess and the total liability do not
    decrease when the taxable income grows; hence under the old regime
    more deductions never raise the liability, and under either regime
    more income never lowers it. *)
Theorem X6_liability_monotone :
  forall (incomeDetails incomeDetails' : IncomeDetails)
         (deductions deductions' : Deductions) (useNewRegime : bool),
    (let r := TaxCalculator.calculateCompleteTax incomeDetails deductions useNewRegime in
     let r' := TaxCalculator.calculateCompleteTax incomeDetails' deductions' useNewRegime in
     taxableIncome r <= taxableIncome r' ->
     taxBeforeRelief r <= taxBeforeRelief r'
     /\ surcharge r <= surcharge r'
     /\ educationCess r <= educationCess r'
     /\ totalTaxLiability r <= totalTaxLiability r')
    /\
    (TaxCalculator.calculateTotalDeductions deductions
     <= TaxCalculator.calculateTotalDeductions deductions' ->
     totalTaxLiability (TaxCalculator.calculateCompleteTax incomeDetails deductions' false)
     <= totalTaxLiability (TaxCalculator.calculateCompleteTax incomeDetails deductions false))
    /\
    (TaxCalculator.calculateTotalIncome incomeDetails
     <= TaxCalculator.calculateTotalIncome incomeDetails' ->
     totalTaxLiability
       (TaxCalculator.calculateCompleteTax incomeDetails deductions useNewRegime)
     <= totalTaxLiability
          (TaxCalculator.calculateCompleteTax incomeDetails' deductions useNewRegime)).
Proof.
  intros inc inc' d d' regime. split_and!.
  - intros r r'. simpl. intros Hxy. by apply figures_mono.
  - intros Hd. simpl. apply figures_mono. apply Q.max_le_compat_r. lra.
  - intros Hi. simpl. apply figures_mono. apply Q.max_le_compat_r.
    destruct regime; lra.
Qed.

(** X6 with the deductions of [deductions_large] against none. *)
Lemma X6_witness :
  totalTaxLiability
    (TaxCalculator.calculateCompleteTax income_one_employer deductions_large false)
  <= totalTaxLiability
       (TaxCalculator.calculateCompleteTax income_one_employer zero_deductions false)
  /\ totalTaxLiability
       (TaxCalculator.calculateCompleteTax income_small zero_deductions true)
     <= totalTaxLiability
          (TaxCalculator.calculateCompleteTax income_one_employer zero_deductions true).
Proof.
  split.
  - apply (proj1 (proj2 (X6_liability_monotone income_one_employer income_one_employer
                           zero_deductions deductions_large false))).
    vm_compute. discriminate.
  - apply (proj2 (proj2 (X6_liability_monotone income_small income_one_employer
                           zero_deductions zero_deductions true))).
    vm_compute. discriminate.
Defined.

(** X7. Whatever the input, negative amounts included, the result of
    [calculateCompleteTax] has no negative taxable income, tax, surcharge
    or cess, and its total liability is 104% of tax plus surcharge, hence
    at least the tax. *)
Theorem X7_result_nonneg :
  forall (incomeDetails : IncomeDetails) (deductions : Deductions) (useNewRegime : bool),
    let r := TaxCalculator.calculateCompleteTax incomeDetails deductions useNewRegime in
    0 <= taxableIncome r /\ 0 <= taxBeforeRelief r /\ 0 <= surcharge r
    /\ 0 <= educationCess r
    /\ taxBeforeRelief r <= totalTaxLiability r
    /\ totalTaxLiability r == (104 # 100) * (taxBeforeRelief r + surcharge r).
Proof.
  intros inc d regime r. simpl. set (x := Qmax _ 0).
  pose proof (calculateTax_nonneg x regime) as Hn.
  pose proof (calculateSurcharge_nonneg x _ Hn) as Hs.
  unfold TaxCalculator.calculateEducationCess. split_and!; try lra. apply Q.le_max_r.
Qed.

(** X8. [compareTaxRegimes] returns the two results of
    [calculateCompleteTax]; it names the old regime exactly when its
    liability is at most that of the new one (a tie goes to the old
    regime), and the regime it names has the lower liability. *)
Theorem X8_compareTaxRegimes :
  forall (incomeDetails : IncomeDetails) (deductions : Deductions),
    let c := TaxCalculator.compareTaxRegimes incomeDetails deductions in
    let lo := totalTaxLiability
                (TaxCalculator.calculateCompleteTax incomeDetails deductions false) in
    let ln := totalTaxLiability
                (TaxCalculator.calculateCompleteTax incomeDetails deductions true) in
    TaxCalculator.oldRegime c
    = TaxCalculator.calculateCompleteTax incomeDetails deductions false
    /\ TaxCalculator.newRegime c
       = TaxCalculator.calculateCompleteTax incomeDetails deductions true
    /\ (TaxCalculator.betterRegime c = TaxCalculator.old <-> lo <= ln)
    /\ (TaxCalculator.betterRegime c = TaxCalculator.new <-> ln < lo)
    /\ (let best := match TaxCalculator.betterRegime c with
                    | TaxCalculator.old => lo
                    | TaxCalculator.new => ln
                    end in
        best <= lo /\ best <= ln).
Proof.
  intros inc d c lo ln. unfold c, TaxCalculator.compareTaxRegimes.
  cbn [TaxCalculator.oldRegime TaxCalculator.newRegime TaxCalculator.betterRegime].
  fold lo ln. split; [reflexivity|]. split; [reflexivity|].
  destruct (Qle_bool lo ln) eqn:E.
  - apply Qle_bool_iff in E. split_and!; try done; try lra.
    split; [done|]. intros H. lra.
  - apply Qle_bool_false in E. split_and!; try done; try lra.
    split; [done|]. intros H. lra.
Qed.

(** X9. The total income is not negative when the gross salaries, the
    capital gains and the other incomes of the enabled sub-records are
    not negative, whatever the properties hold: the net income of a
    property is floored at 0. *)
Theorem X9_totalIncome_nonneg :
  forall incomeDetails : IncomeDetails,
    (SalaryIncome.hasIncome (salaryIncome incomeDetails) = true ->
     Forall (fun e => 0 <= Employer.grossSalary e)
            (SalaryIncome.employers (salaryIncome incomeDetails))) ->
    (CapitalGains.hasIncome (capitalGains incomeDetails) = true ->
     0 <= CapitalGains.shortTermGains (capitalGains incomeDetails)
     /\ 0 <= CapitalGains.longTermGains (capitalGains incomeDetails)) ->
    (OtherSources.hasIncome (otherSources incomeDetails) = true ->
     0 <= OtherSources.interestIncome (otherSources incomeDetails)
     /\ 0 <= OtherSources.dividendIncome (otherSources incomeDetails)
     /\ 0 <= OtherSources.otherIncome (otherSources incomeDetails)) ->
    0 <= TaxCalculator.calculateTotalIncome incomeDetails.
Proof.
  intros inc Hs Hc Ho. rewrite calculateTotalIncome_sum.
  assert (H1 : 0 <= (if SalaryIncome.hasIncome (salaryIncome inc)
                     then sum_of Employer.grossSalary
                            (SalaryIncome.employers (salaryIncome inc)) else 0)).
  { destruct (SalaryIncome.hasIncome _); [|lra]. apply sum_of_nonneg. by apply Hs. }
  assert (H2 : 0 <= (if HousePropertyIncome.hasIncome (housePropertyIncome inc)
                     then sum_of (fun p => Qmax (property_net p) 0)
                            (HousePropertyIncome.properties (housePropertyIncome inc))
                     else 0)).
  { destruct (HousePropertyIncome.hasIncome _); [|lra].
    apply sum_of_nonneg_all. intros p. apply Q.le_max_r. }
  destruct (CapitalGains.hasIncome _); destruct (OtherSources.hasIncome _);
    try (destruct (Hc eq_refl) as [? ?]); try (destruct (Ho eq_refl) as (? & ? & ?));
    lra.
Qed.

(** X9 on an income with a property that makes a loss. *)
Lemma X9_witness : 0 <= TaxCalculator.calculateTotalIncome income_rented_flat.
Proof.
  apply X9_totalIncome_nonneg.
  - intros _. repeat constructor. vm_compute. discriminate.
  - intros _. split; vm_compute; discriminate.
  - intros H. discriminate H.
Defined.

(** X10. Enabling the house property sub-record never lowers the total
    income, and when no property has a positive net income it leaves the
    total as it is: a loss on a property is not set off against the other
    incomes. *)
Theorem X10_property_loss_ignored :
  forall (s : SalaryIncome.t) (c : CapitalGains.t) (o : OtherSources.t)
         (properties : list Property.t),
    TaxCalculator.calculateTotalIncome
      (mkIncomeDetails s (HousePropertyIncome.mk false properties) c o)
    <= TaxCalculator.calculateTotalIncome
         (mkIncomeDetails s (HousePropertyIncome.mk true properties) c o)
    /\ (Forall (fun p => property_net p <= 0) properties ->
        TaxCalculator.calculateTotalIncome
          (mkIncomeDetails s (HousePropertyIncome.mk true properties) c o)
        == TaxCalculator.calculateTotalIncome
             (mkIncomeDetails s (HousePropertyIncome.mk false properties) c o)).
Proof.
  intros s c o properties. rewrite !calculateTotalIncome_sum. simpl.
  assert (H : 0 <= sum_of (fun p => Qmax (property_net p) 0) properties).
  { apply sum_of_nonneg_all. intros p. apply Q.le_max_r. }
  split; [lra|]. intros Hneg.
  assert (E : sum_of (fun p => Qmax (property_net p) 0) properties == 0).
  { clear H. induction Hneg as [|p l Hp _ IH]; simpl; [reflexivity|].
    rewrite IH. rewrite Q.max_r by done. lra. }
  lra.
Qed.

(** X10 on the property of [income_rented_flat], whose net income is
    -45,000. *)
Lemma X10_witness :
  let properties := HousePropertyIncome.properties (housePropertyIncome income_rented_flat) in
  TaxCalculator.calculateTotalIncome
    (mkIncomeDetails (salaryIncome income_rented_flat)
       (HousePropertyIncome.mk true properties)
       (capitalGains income_rented_flat) (otherSources income_rented_flat))
  == TaxCalculator.calculateTotalIncome
       (mkIncomeDetails (salaryIncome income_rented_flat)
          (HousePropertyIncome.mk false properties)
          (capitalGains income_rented_flat) (otherSources income_rented_flat)).
Proof.
  intros properties.
  apply (proj2 (X10_property_loss_ignored (salaryIncome income_rented_flat)
                  (capitalGains income_rented_flat) (otherSources income_rented_flat)
                  properties)).
  repeat constructor. vm_compute. discriminate.
Defined.

(** X11. Once the 80C fields add up to 150,000 or more, their values no
    longer matter: two deductions records that differ only in 80C fields
    above the ceiling have the same total. *)
Theorem X11_section80C_saturation :
  forall (c c' : Section80C.t) (d : Section80D.t) (o : OtherDeductions.t),
    150000 <= sum_of (fun v => v) (Object_values_section80C c) ->
    150000 <= sum_of (fun v => v) (Object_values_section80C c') ->
    TaxCalculator.calculateTotalDeductions (mkDeductions c d o)
    == TaxCalculator.calculateTotalDeductions (mkDeductions c' d o).
Proof.
  intros c c' d o Hc Hc'. rewrite !calculateTotalDeductions_sum. simpl section80C.
  rewrite !Q.min_r by done. reflexivity.
Qed.

(** X11 on 150,000 in one field against 100,000 and 50,000 in two. *)
Lemma X11_witness :
  TaxCalculator.calculateTotalDeductions
    (mkDeductions (section80C deductions_large) (section80D deductions_large)
                  (otherDeductions deductions_large))
  == TaxCalculator.calculateTotalDeductions
       (mkDeductions (section80C deductions_saturated) (section80D deductions_large)
                     (otherDeductions deductions_large)).
Proof.
  apply X11_section80C_saturation; vm_compute; discriminate.
Defined.

(** X12. The qualifying amount that the donation dialog computes for an
    amount that is not negative lies between 0 and the amount: it is half
    of the amount at 50% and the whole amount otherwise (100%, or no
    percentage chosen). *)
Theorem X12_donation_qualifyingAmount :
  forall (amount : Q) (percentage : option DeductionPercentage),
    0 <= amount ->
    let q := donation_qualifyingAmount (Some amount) percentage in
    0 <= q /\ q <= amount
    /\ (percentage = Some pct50 -> q == amount / 2)
    /\ (percentage ≠ Some pct50 -> q == amount).
Proof.
  intros amount percentage Ha q. unfold q, donation_qualifyingAmount.
  assert (Ea : (if Qeq_bool amount 0 then 0 else amount) == amount).
  { destruct (Qeq_bool amount 0) eqn:E; [|reflexivity].
    apply Qeq_bool_iff in E. by rewrite E. }
  destruct percentage as [[]|]; simpl; rewrite Ea;
    (split; [rewrite Qdiv_100; lra|split; [rewrite Qdiv_100; lra|split]]);
    intros H; try done; field.
Qed.

(** X12 on a donation of 8,000 at 50%. *)
Lemma X12_witness :
  let q := donation_qualifyingAmount (Some 8000) (Some pct50) in
  0 <= q /\ q <= 8000 /\ q == 8000 / 2.
Proof.
  destruct (X12_donation_qualifyingAmount 8000 (Some pct50)) as (H1 & H2 & H3 & _).
  - vm_compute. discriminate.
  - split_and!; [exact H1 | exact H2 | by apply H3].
Defined.

Close Scope Q_scope.

(** * Part V: further properties of the record store *)

Section StoreFurther.
Context {J : JSON}.
Import ITRStorage.

Lemma clear_eq (w : World) :
  clear w =
  (Ok tt,
   mkWorld (Storage.removeItem STORAGE_KEY (localStorage w)) (console w) (now w)
           (timers w) (next_timer w) (autoSaveTimer w) (listeners w)
           (calls w ++ map (fun callback => (callback, VObj ∅)) (listeners w))).
Proof. reflexivity. Qed.

Lemma export_eq (w : World) :
  export w = (Ok (JSON_stringify_indent (snapshot w) 2), (load w).2).
Proof.
  unfold export, bind, ret. destruct (load_pair w) as [c Hl]. rewrite Hl. reflexivity.
Qed.

Lemma hasData_object (w : World) (m : gmap string value) :
  (load w).1 = Ok (VObj m) -> (hasData w).1 = Ok (bool_decide (0 < size m)).
Proof.
  intros Hl. unfold hasData, bind.
  destruct (load w) as [r w1]. simpl in Hl. subst r. reflexivity.
Qed.



Lemma save_items_other (data : value) (w : World) (k : string) :
  k ≠ STORAGE_KEY ->
  Storage.items (localStorage (save data w).2) !! k = Storage.items (localStorage w) !! k
  /\ Storage.quota (localStorage (save data w).2) = Storage.quota (localStorage w).
Proof.
  intros Hk.
  destruct (Storage.accepts STORAGE_KEY (JSON_stringify (merged_of data w))
                            (localStorage w)) eqn:Hacc.
  - destruct (save_accepted _ _ Hacc) as [c ->]. simpl.
    split; [|reflexivity]. by apply lookup_insert_ne.
  - rewrite (save_rejected _ _ Hacc). by destruct w.
Qed.

Lemma save_stores_object (data : value) (w : World) :
  stores_object w -> stores_object (save data w).2.
Proof.
  intros Hw. unfold stores_object.
  destruct (Storage.accepts STORAGE_KEY (JSON_stringify (merged_of data w))
                            (localStorage w)) eqn:Hacc.
  - destruct (save_accepted _ _ Hacc) as [c ->]. simpl.
    unfold Storage.getItem. simpl. rewrite lookup_insert_eq. by eexists.
  - rewrite (save_rejected _ _ Hacc). by destruct w.
Qed.

Lemma run_timers_items_other (due : list Timer) (w : World) (k : string) :
  k ≠ STORAGE_KEY ->
  Storage.items (localStorage (fold_left run_timer due w)) !! k
  = Storage.items (localStorage w) !! k
  /\ Storage.quota (localStorage (fold_left run_timer due w))
     = Storage.quota (localStorage w).
Proof.
  intros Hk. revert w. induction due as [|tm due IH]; intros w; simpl; [done|].
  destruct (IH (run_timer w tm)) as [-> ->]. by apply save_items_other.
Qed.

Lemma run_timers_stores_object (due : list Timer) (w : World) :
  stores_object w -> stores_object (fold_left run_timer due w).
Proof.
  revert w. induction due as [|tm due IH]; intros w Hw; simpl; [done|].
  apply IH. by apply save_stores_object.
Qed.

Lemma step_items_other (w : World) (e : event) (k : string) :
  k ≠ STORAGE_KEY ->
  Storage.items (localStorage (step w e)) !! k = Storage.items (localStorage w) !! k
  /\ Storage.quota (localStorage (step w e)) = Storage.quota (localStorage w).
Proof.
  intros Hk. destruct e as [data|data| |callback|callback|jsonData|ms]; simpl.
  - by apply save_items_other.
  - unfold autoSave, bind, get_autoSaveTimer. simpl. by destruct (autoSaveTimer w).
  - split; [|reflexivity]. by apply lookup_delete_ne.
  - by case_bool_decide.
  - done.
  - destruct (JSON_parse jsonData) as [data|] eqn:Hp.
    + rewrite (import_valid _ _ _ Hp). by apply save_items_other.
    + by rewrite (import_invalid _ _ Hp).
  - unfold advance.
    match goal with
    | |- context [fold_left run_timer ?due ?w0] =>
        destruct (run_timers_items_other due w0 k Hk) as [-> ->]
    end. done.
Qed.

Lemma step_stores_object (w : World) (e : event) :
  stores_object w -> stores_object (step w e).
Proof.
  intros Hw. destruct e as [data|data| |callback|callback|jsonData|ms]; simpl.
  - by apply save_stores_object.
  - unfold autoSave, bind, get_autoSaveTimer. simpl. by destruct (autoSaveTimer w).
  - unfold stores_object, Storage.getItem. simpl. by rewrite lookup_delete_eq.
  - by case_bool_decide.
  - done.
  - destruct (JSON_parse jsonData) as [data|] eqn:Hp.
    + rewrite (import_valid _ _ _ Hp). by apply save_stores_object.
    + by rewrite (import_invalid _ _ Hp).
  - unfold advance. apply run_timers_stores_object. by destruct w.
Qed.


Lemma one_timer_wf (w : World) : one_timer w -> World_wf w.
Proof.
  unfold World_wf. intros [->|(tm & -> & Hs)]; by repeat constructor.
Qed.

Lemma step_one_timer (w : World) (e : event) : one_timer w -> one_timer (step w e).
Proof.
  intros Hw. pose proof (one_timer_wf w Hw) as Hwf.
  destruct e as [data|data| |callback|callback|jsonData|ms]; simpl.
  - unfold one_timer. by destruct (save_schedule data w) as (_ & -> & _ & -> & _).
  - rewrite (autoSave_wf _ _ Hwf). right. by eexists.
  - exact Hw.
  - unfold one_timer. by case_bool_decide.
  - exact Hw.
  - destruct (JSON_parse jsonData) as [data|] eqn:Hp.
    + rewrite (import_valid _ _ _ Hp). simpl.
      unfold one_timer. by destruct (save_schedule data w) as (_ & -> & _ & -> & _).
    + by rewrite (import_invalid _ _ Hp).
  - unfold one_timer, advance.
    match goal with
    | |- context [fold_left run_timer ?due ?w0] =>
        destruct (run_timers_schedule due w0) as [-> ->]
    end.
    simpl. destruct Hw as [->|(tm & -> & Hs)]; [by left|].
    rewrite filter_cons, filter_nil. case_decide; [right; by eexists | by left].
Qed.

Lemma run_one_timer (quota : nat) (history : list event) : one_timer (run quota history).
Proof.
  unfold run. assert (H0 : one_timer (initial_world quota)) by (by left).
  revert H0. generalize (initial_world quota).
  induction history as [|e history IH]; intros w Hw; simpl; [done|].
  apply IH. by apply step_one_timer.
Qed.

Lemma step_listeners_NoDup (w : World) (e : event) :
  NoDup (listeners w) -> NoDup (listeners (step w e)).
Proof.
  intros Hw. destruct e as [data|data| |callback|callback|jsonData|ms]; simpl.
  - by destruct (save_schedule data w) as (_ & _ & _ & _ & ->).
  - unfold autoSave, bind, get_autoSaveTimer. simpl. by destruct (autoSaveTimer w).
  - exact Hw.
  - case_bool_decide as Hin; [exact Hw|]. simpl.
    apply NoDup_app. split_and!; [done| |apply NoDup_singleton].
    intros x Hx Hx'. apply list_elem_of_singleton in Hx'. by subst.
  - by apply NoDup_filter.
  - destruct (JSON_parse jsonData) as [data|] eqn:Hp.
    + rewrite (import_valid _ _ _ Hp). simpl.
      by destruct (save_schedule data w) as (_ & _ & _ & _ & ->).
    + by rewrite (import_invalid _ _ Hp).
  - unfold advance.
    match goal with
    | |- context [fold_left run_timer ?due ?w0] =>
        assert (listeners (fold_left run_timer due w0) = listeners w0) as ->
    end; [|done].
    match goal with
    | |- listeners (fold_left run_timer ?due ?w0) = _ => generalize w0; generalize due
    end.
    intros due. induction due as [|tm due IH]; intros w0; simpl; [done|].
    rewrite IH. unfold run_timer.
    by destruct (save_schedule (timer_data tm) w0) as (_ & _ & _ & _ & ->).
Qed.


Lemma save_calls (data : value) (w : World) :
  exists extra,
    calls (save data w).2 = calls w ++ extra
    /\ Forall (fun c => c.1 ∈ listeners w) extra.
Proof.
  destruct (Storage.accepts STORAGE_KEY (JSON_stringify (merged_of data w))
                            (localStorage w)) eqn:Hacc.
  - destruct (save_accepted _ _ Hacc) as [c ->]. simpl. eexists. split; [done|].
    apply Forall_forall. intros [cb v] Hin. apply list_elem_of_fmap in Hin as (cb' & [= -> ->] & Hin).
    done.
  - rewrite (save_rejected _ _ Hacc). exists []. simpl. by rewrite (right_id_L [] (++)).
Qed.

Lemma save_calls_to (callback : nat) (data : value) (w : World) :
  callback ∉ listeners w -> calls_to callback (save data w).2 = calls_to callback w.
Proof.
  intros Hnin. unfold calls_to. destruct (save_calls data w) as (extra & -> & Hex).
  rewrite filter_app.
  assert (E : filter (fun c : nat * value => c.1 = callback) extra = []).
  { induction Hex as [|c extra Hc _ IH]; [done|].
    rewrite filter_cons. rewrite decide_False; [exact IH|]. intros <-. done. }
  rewrite E. by rewrite (right_id_L [] (++)).
Qed.

Lemma run_timers_calls_to (callback : nat) (due : list Timer) (w : World) :
  callback ∉ listeners w ->
  calls_to callback (fold_left run_timer due w) = calls_to callback w
  /\ listeners (fold_left run_timer due w) = listeners w.
Proof.
  revert w. induction due as [|tm due IH]; intros w Hnin; simpl; [done|].
  unfold run_timer at 2 4.
  destruct (save_schedule (timer_data tm) w) as (_ & _ & _ & _ & Hl).
  destruct (IH (save (timer_data tm) w).2) as [-> ->]; [by rewrite Hl|].
  split; [by apply save_calls_to | exact Hl].
Qed.

Lemma step_calls_to (callback : nat) (w : World) (e : event) :
  e ≠ Subscribe callback -> callback ∉ listeners w ->
  calls_to callback (step w e) = calls_to callback w
  /\ callback ∉ listeners (step w e).
Proof.
  intros He Hnin. destruct e as [data|data| |cb|cb|jsonData|ms]; simpl.
  - destruct (save_schedule data w) as (_ & _ & _ & _ & Hl).
    split; [by apply save_calls_to | by rewrite Hl].
  - unfold autoSave, bind, get_autoSaveTimer. simpl. by destruct (autoSaveTimer w).
  - split; [|done]. unfold calls_to. simpl. rewrite filter_app.
    assert (E : filter (fun c : nat * value => c.1 = callback)
                  (map (fun cb => (cb, VObj ∅)) (listeners w)) = []).
    { induction (listeners w) as [|x l IH]; [done|].
      apply not_elem_of_cons in Hnin as [Hx Hl]. simpl.
      rewrite filter_cons. rewrite decide_False by (simpl; congruence).
      by apply IH. }
    rewrite E. by rewrite (right_id_L [] (++)).
  - case_bool_decide; [done|]. simpl. split; [done|].
    assert (callback ≠ cb) by congruence.
    rewrite not_elem_of_app, not_elem_of_cons. split_and!; [done|done|apply not_elem_of_nil].
  - split; [done|]. rewrite list_elem_of_filter. tauto.
  - destruct (JSON_parse jsonData) as [data|] eqn:Hp.
    + rewrite (import_valid _ _ _ Hp). simpl.
      destruct (save_schedule data w) as (_ & _ & _ & _ & Hl).
      split; [by apply save_calls_to | by rewrite Hl].
    + by rewrite (import_invalid _ _ Hp).
  - unfold advance.
    match goal with
    | |- context [fold_left run_timer ?due ?w0] =>
        destruct (run_timers_calls_to callback due w0) as [-> ->]; [done|]
    end. done.
Qed.


Lemma snapshot_cleared (w : World) : snapshot (clear w).2 = VObj ∅.
Proof.
  apply snapshot_empty. rewrite clear_eq. unfold Storage.getItem. simpl.
  apply lookup_delete_eq.
Qed.


Lemma merged_idem (w : World) (m : gmap string value) :
  snapshot w = VObj m -> merged_of (VObj m) w = VObj m.
Proof.
  intros Hs. unfold merged_of, spread. rewrite Hs. simpl. by rewrite (idemp_L (∪)).
Qed.


Lemma last_cons_default {A} (l : list A) (q p : A) :
  List.last (q :: l) p = List.last l q.
Proof.
  revert q p. induction l as [|a l IH]; intros q p; [done|].
  change (List.last (a :: l) p = List.last (a :: l) q). by rewrite !IH.
Qed.

Lemma burst_pending (w : World) (burst : list (nat * value)) (p : value)
    (n : nat) (id nx : positive) :
  Forall (fun dp => dp.1 < AUTO_SAVE_INTERVAL) burst ->
  exists (n' : nat) (id' nx' : positive),
    autoSave_burst
      (mkWorld (localStorage w) (console w) n [mkTimer id (n + AUTO_SAVE_INTERVAL) p]
               nx (Some id) (listeners w) (calls w)) burst
    = mkWorld (localStorage w) (console w) n'
              [mkTimer id' (n' + AUTO_SAVE_INTERVAL) (List.last (map snd burst) p)]
              nx' (Some id') (listeners w) (calls w).
Proof.
  intros Hb. revert p n id nx.
  induction Hb as [|[d q] burst Hd _ IH]; intros p n id nx.
  - simpl. by eexists _, _, _.
  - cbn [autoSave_burst fold_left fst snd]. simpl in Hd.
    rewrite advance_one_later by (simpl; lia).
    rewrite autoSave_wf by (unfold World_wf; simpl; by repeat constructor).
    cbn [snd localStorage console now next_timer listeners calls].
    destruct (IH q (n + d) nx (Pos.succ nx)) as (n' & id' & nx' & E).
    unfold autoSave_burst in E. rewrite E.
    exists n', id', nx'. cbn [map snd]. by rewrite last_cons_default.
Qed.


End StoreFurther.



(** X14. [load], [save], [clear], [autoSave], [export] and [import] never
    throw, whatever the substrate holds and whether or not it accepts the
    write; [import] returns true exactly when its text parses. *)
Theorem X14_no_throw :
  forall (J : JSON) (w : World) (data : value) (jsonData : string),
    (ITRStorage.load w).1 = Ok (ITRStorage.snapshot w)
    /\ (ITRStorage.save data w).1 = Ok tt
    /\ (ITRStorage.clear w).1 = Ok tt
    /\ (ITRStorage.autoSave data w).1 = Ok tt
    /\ (ITRStorage.export w).1 = Ok (JSON_stringify_indent (ITRStorage.snapshot w) 2)
    /\ (ITRStorage.import jsonData w).1
       = Ok (bool_decide (is_Some (JSON_parse jsonData))).
Proof.
  intros J w data jsonData. split_and!.
  - apply load_ok.
  - apply save_never_throws.
  - reflexivity.
  - unfold ITRStorage.autoSave, bind, get_autoSaveTimer. simpl.
    by destruct (autoSaveTimer w).
  - by rewrite export_eq.
  - destruct (JSON_parse jsonData) as [v|] eqn:Hp.
    + by rewrite (import_valid _ _ _ Hp).
    + by rewrite (import_invalid _ _ Hp).
Qed.



(** X16. The store touches no key of the substrate but its own: after
    any history of calls and delays every other key holds what it held,
    and the quota is the same. *)
Theorem X16_only_own_key :
  forall (J : JSON) (w : World) (history : list event) (k : string),
    k ≠ STORAGE_KEY ->
    let w' := fold_left step history w in
    Storage.getItem k (localStorage w') = Storage.getItem k (localStorage w)
    /\ Storage.quota (localStorage w') = Storage.quota (localStorage w).
Proof.
  intros J w history k Hk. revert w.
  induction history as [|e history IH]; intros w; simpl; [done|].
  destruct (IH (step w e)) as [E1 E2]. simpl in E1, E2. rewrite E1, E2.
  by apply step_items_other.
Qed.

(** X16 on a substrate that also holds a [theme]. *)
Lemma X16_witness :
  let w' := fold_left (step (J := RefJSON.ref))
              [Save (section_only "personalDetails" personal_sample); Clear;
               AutoSave (section_only "incomeDetails" income_sample); Advance 5000]
              world_shared in
  Storage.getItem "theme" (localStorage w') = Storage.getItem "theme" (localStorage world_shared)
  /\ Storage.quota (localStorage w') = Storage.quota (localStorage world_shared).
Proof.
  apply (X16_only_own_key RefJSON.ref world_shared _ "theme"). discriminate.
Defined.

(** X17. Whatever is saved, imported or cleared from a fresh page on, the
    item of the store is absent or the text of an object: the store never
    writes the text of [null], of a number, of a string or of an
    array. *)
Theorem X17_stores_object :
  forall (J : JSON) (quota : nat) (history : list event),
    match Storage.getItem STORAGE_KEY (localStorage (run quota history)) with
    | Some text => exists m : gmap string value, text = JSON_stringify (VObj m)
    | None => True
    end.
Proof.
  intros J quota history. change (stores_object (run quota history)).
  unfold run. assert (H0 : stores_object (initial_world quota)) by done.
  revert H0. generalize (initial_world quota).
  induction history as [|e history IH]; intros w Hw; simpl; [done|].
  apply IH. by apply step_stores_object.
Qed.

(** X18. After any history from a fresh page at most one timer is
    pending, and it is the one that [autoSaveTimer] remembers. *)
Theorem X18_one_pending_timer :
  forall (J : JSON) (quota : nat) (history : list event),
    let w := run quota history in
    length (timers w) ≤ 1
    /\ forall tm, tm ∈ timers w -> autoSaveTimer w = Some (timer_id tm).
Proof.
  intros J quota history w.
  destruct (run_one_timer quota history) as [E|(tm & E & Hs)]; fold w in E |- *; rewrite E.
  - split; [simpl; lia|]. intros tm Htm. by apply not_elem_of_nil in Htm.
  - split; [simpl; lia|]. intros tm' Htm. apply list_elem_of_singleton in Htm. by subst.
Qed.

(** X18 after three calls of [autoSave]. *)
Lemma X18_witness :
  let w := run (J := RefJSON.ref) 4096
             [AutoSave (section_only "personalDetails" personal_sample); Advance 100;
              AutoSave (section_only "personalDetails" personal_sample'); Advance 400;
              AutoSave (section_only "incomeDetails" income_sample)] in
  autoSaveTimer w = Some 3%positive.
Proof.
  intros w.
  apply (proj2 (X18_one_pending_timer RefJSON.ref 4096 _)
           (mkTimer 3 (500 + AUTO_SAVE_INTERVAL)
                    (section_only "incomeDetails" income_sample))).
  vm_compute. apply list_elem_of_singleton. reflexivity.
Defined.

(** X19. The listeners hold no callback twice.  [subscribe] registers the
    callback and a second [subscribe] of it changes nothing; the function
    that [subscribe] returns removes it, and for a callback that was not
    registered before it restores the listeners as they were. *)
Theorem X19_subscribe_unsubscribe :
  forall (J : JSON) (quota : nat) (history : list event) (callback : nat),
    let w := run quota history in
    NoDup (listeners w)
    /\ (let w1 := (ITRStorage.subscribe callback w).2 in
        callback ∈ listeners w1 /\ (ITRStorage.subscribe callback w1).2 = w1)
    /\ (let w1 := (ITRStorage.unsubscribe callback w).2 in callback ∉ listeners w1)
    /\ (callback ∉ listeners w ->
        let w1 := (ITRStorage.subscribe callback w).2 in
        listeners (ITRStorage.unsubscribe callback w1).2 = listeners w).
Proof.
  intros J quota history callback w.
  assert (Hnd : NoDup (listeners w)).
  { unfold w, run. assert (H0 : NoDup (listeners (initial_world quota))) by constructor.
    revert H0. generalize (initial_world quota).
    induction history as [|e history IH]; intros w0 Hw; simpl; [done|].
    apply IH. by apply step_listeners_NoDup. }
  assert (Hsub : forall w0 : World,
             listeners (ITRStorage.subscribe callback w0).2
             = if bool_decide (callback ∈ listeners w0) then listeners w0
               else listeners w0 ++ [callback]).
  { intros w0. unfold ITRStorage.subscribe. simpl. by case_bool_decide. }
  assert (Hin : callback ∈ listeners (ITRStorage.subscribe callback w).2).
  { rewrite Hsub. case_bool_decide; [done|]. apply elem_of_app. right.
    by apply list_elem_of_singleton. }
  split_and!.
  - exact Hnd.
  - intros w1. split; [exact Hin|].
    unfold ITRStorage.subscribe at 1. cbn [snd].
    by rewrite bool_decide_eq_true_2.
  - intros w1. unfold w1, ITRStorage.unsubscribe. simpl.
    rewrite list_elem_of_filter. tauto.
  - intros Hnin w1. unfold w1, ITRStorage.unsubscribe. cbn [snd set_listeners listeners].
    rewrite Hsub. rewrite bool_decide_eq_false_2 by done.
    rewrite filter_app, filter_cons, filter_nil. rewrite decide_False by tauto.
    rewrite (right_id_L [] (++)).
    clear Hnd Hin. induction (listeners w) as [|x l IH]; [done|].
    apply not_elem_of_cons in Hnin as [Hx Hl].
    rewrite filter_cons. rewrite decide_True by done.
    f_equal. by apply IH.
Qed.

(** X19 on a store with the listener 7, for the callback 8. *)
Lemma X19_witness :
  let w := run (J := RefJSON.ref) 4096 [Subscribe 7] in
  let w1 := (ITRStorage.subscribe 8 w).2 in
  listeners (ITRStorage.unsubscribe 8 w1).2 = listeners w.
Proof.
  intros w.
  apply (proj2 (proj2 (proj2 (X19_subscribe_unsubscribe RefJSON.ref 4096 [Subscribe 7] 8)))).
  vm_compute. intros H. apply list_elem_of_singleton in H. discriminate H.
Defined.

(** X20. A callback that has been unsubscribed is never called again, by
    no save, import, clear or timer, as long as it is not subscribed
    again. *)
Theorem X20_unsubscribed_never_called :
  forall (J : JSON) (w : World) (callback : nat) (history : list event),
    Subscribe callback ∉ history ->
    let w0 := (ITRStorage.unsubscribe callback w).2 in
    filter (fun c => c.1 = callback) (calls (fold_left step history w0))
    = filter (fun c => c.1 = callback) (calls w).
Proof.
  intros J w callback history Hh w0.
  assert (H0 : callback ∉ listeners w0).
  { unfold w0, ITRStorage.unsubscribe. simpl. rewrite list_elem_of_filter. tauto. }
  change (calls_to callback (fold_left step history w0) = calls_to callback w0).
  revert H0. generalize w0. clear w0.
  induction history as [|e history IH]; intros w0 H0; simpl; [done|].
  apply not_elem_of_cons in Hh as [He Hh].
  destruct (step_calls_to callback w0 e) as [E Hn]; [done|done|].
  rewrite IH; done.
Qed.

(** X20 on the listener 7 of a store that holds the personal section. *)
Lemma X20_witness :
  let history := [Save (section_only "incomeDetails" income_sample); Clear;
                  Subscribe 8; Import "{ }"] in
  let w0 := (ITRStorage.unsubscribe 7 world_with_personal).2 in
  filter (fun c => c.1 = 7) (calls (fold_left (step (J := RefJSON.ref)) history w0))
  = filter (fun c => c.1 = 7) (calls world_with_personal).
Proof.
  intros history.
  apply (X20_unsubscribed_never_called RefJSON.ref world_with_personal 7 history).
  unfold history. rewrite !elem_of_cons, elem_of_nil.
  intros [H|[H|[H|[H|[]]]]]; discriminate H.
Defined.

(** X21. After [clear] the key is absent, [load] returns the empty
    object, [hasData] is false, the four completion flags are false, and
    every listener has been called once more, with the empty object; a
    pending auto-save timer is left as it is. *)
Theorem X21_clear :
  forall (J : JSON) (w : World),
    let w' := (ITRStorage.clear w).2 in
    Storage.getItem STORAGE_KEY (localStorage w') = None
    /\ (ITRStorage.load w').1 = Ok (VObj ∅)
    /\ (ITRStorage.hasData w').1 = Ok false
    /\ (ITRStorage.getCompletionStatus w').1
       = Ok (CompletionStatus.mk false false false false)
    /\ calls w' = calls w ++ map (fun callback => (callback, VObj ∅)) (listeners w)
    /\ timers w' = timers w
    /\ autoSaveTimer w' = autoSaveTimer w.
Proof.
  intros J w w'.
  assert (Hl : (ITRStorage.load w').1 = Ok (VObj ∅)).
  { rewrite load_ok. f_equal. apply snapshot_cleared. }
  split_and!; try reflexivity.
  - unfold w'. rewrite clear_eq. unfold Storage.getItem. simpl. apply lookup_delete_eq.
  - exact Hl.
  - by rewrite (hasData_object _ _ Hl).
  - by rewrite (getCompletionStatus_object _ _ Hl).
Qed.

(** X22. [clear] does not cancel a pending [autoSave]: when the delay has
    passed the data of the [autoSave] is saved over the cleared store, so
    the store holds that data again. *)
Theorem X22_clear_keeps_autoSave :
  forall (J : JSON) (w : World) (data : value) (t : nat),
    World_wf w ->
    AUTO_SAVE_INTERVAL ≤ t ->
    let w1 := (ITRStorage.autoSave data w).2 in
    let w2 := (ITRStorage.clear w1).2 in
    let w3 := ITRStorage.advance t w2 in
    let ws := (ITRStorage.save data (ITRStorage.clear w).2).2 in
    localStorage w3 = localStorage ws
    /\ calls w3 = calls ws
    /\ (ITRStorage.persists data (ITRStorage.clear w).2 ->
        ITRStorage.snapshot w3 = VObj (own_props data)).
Proof.
  intros J w data t Hwf Ht w1 w2 w3 ws.
  assert (E3 : localStorage w3 = localStorage ws /\ calls w3 = calls ws).
  { assert (E2 : w2
                 = mkWorld (Storage.removeItem STORAGE_KEY (localStorage w)) (console w)
                     (now w)
                     [mkTimer (next_timer w) (now w + AUTO_SAVE_INTERVAL) data]
                     (Pos.succ (next_timer w)) (Some (next_timer w)) (listeners w)
                     (calls w ++ map (fun callback => (callback, VObj ∅)) (listeners w))).
    { unfold w2, w1. rewrite (autoSave_wf _ _ Hwf). reflexivity. }
    unfold w3. rewrite E2.
    rewrite advance_one_due by (simpl; unfold AUTO_SAVE_INTERVAL in *; lia).
    unfold ws. rewrite clear_eq. cbn [timer_data snd].
    rewrite (save_frame data _ _ (now w) (timers w) (next_timer w) (autoSaveTimer w)).
    done. }
  destruct E3 as [E3 E3']. split_and!; [done|done|].
  intros Hp.
  rewrite (snapshot_items w3 ws) by (by rewrite E3).
  unfold ws. destruct (save_persisted _ _ Hp) as (-> & _).
  unfold ITRStorage.merged_of, spread. rewrite snapshot_cleared. simpl.
  by rewrite (right_id_L ∅ (∪)).
Qed.

(** X22 on a store that holds the personal section. *)
Lemma X22_witness :
  let w := world_with_personal in
  let data := section_only "incomeDetails" income_sample in
  let w1 := (ITRStorage.autoSave data w).2 in
  let w2 := (ITRStorage.clear w1).2 in
  let w3 := ITRStorage.advance (J := RefJSON.ref) 5000 w2 in
  let ws := (ITRStorage.save (J := RefJSON.ref) data (ITRStorage.clear w).2).2 in
  (localStorage w3 = localStorage ws /\ calls w3 = calls ws)
  /\ ITRStorage.snapshot (J := RefJSON.ref) w3 = VObj (own_props data).
Proof.
  intros w data w1 w2 w3 ws.
  assert (Hwf : World_wf w) by (apply World_wf_save; constructor).
  assert (Ht : AUTO_SAVE_INTERVAL ≤ 5000) by (unfold AUTO_SAVE_INTERVAL; lia).
  destruct (X22_clear_keeps_autoSave RefJSON.ref w data 5000 Hwf Ht) as (H1 & H2 & H3).
  split; [by split|]. apply H3. vm_compute. repeat split; discriminate.
Defined.

(** X23. When the persisted snapshot is an object, [hasData] is true
    exactly when the object has a key; it is false on an empty store and
    true after a save of a section that goes through. *)
Theorem X23_hasData :
  forall (J : JSON) (w : World),
    (forall m : gmap string value,
        (ITRStorage.load w).1 = Ok (VObj m) ->
        (ITRStorage.hasData w).1 = Ok (bool_decide (m ≠ ∅)))
    /\ (Storage.getItem STORAGE_KEY (localStorage w) = None ->
        (ITRStorage.hasData w).1 = Ok false)
    /\ (forall (section : string) (x : value),
           ITRStorage.persists (section_only section x) w ->
           (ITRStorage.hasData (ITRStorage.save (section_only section x) w).2).1 = Ok true).
Proof.
  intros J w.
  assert (Hm : forall (w0 : World) (m : gmap string value),
             (ITRStorage.load w0).1 = Ok (VObj m) ->
             (ITRStorage.hasData w0).1 = Ok (bool_decide (m ≠ ∅))).
  { intros w0 m Hl. rewrite (hasData_object _ _ Hl). f_equal.
    apply bool_decide_ext. rewrite <- map_size_non_empty_iff. lia. }
  split_and!.
  - apply Hm.
  - intros Hempty. rewrite (Hm w ∅); [by rewrite bool_decide_eq_false_2 by tauto|].
    rewrite load_ok. f_equal. by apply snapshot_empty.
  - intros section x Hp.
    rewrite (Hm _ _ (load_persisted _ _ Hp)).
    rewrite bool_decide_eq_true_2; [done|].
    intros E. pose proof (merged_section_eq section x w) as Hs.
    rewrite own_props_merged in Hs.
    rewrite E in Hs. by rewrite lookup_empty in Hs.
Qed.

(** X23 on a fresh store, before and after the save of a section. *)
Lemma X23_witness :
  let w := initial_world 4096 in
  (ITRStorage.hasData (J := RefJSON.ref) w).1 = Ok false
  /\ (ITRStorage.hasData (J := RefJSON.ref)
        (ITRStorage.save (J := RefJSON.ref) (section_only "deductions" VNull) w).2).1
     = Ok true.
Proof.
  intros w.
  destruct (X23_hasData RefJSON.ref w) as (_ & H2 & H3).
  split; [by apply H2|]. apply H3. vm_compute. repeat split; discriminate.
Defined.

(** X24. The text of [export] can be imported back: when it parses to the
    snapshot it was made from, [import] of it into the cleared store
    restores that snapshot, and [import] of it into the store it came
    from leaves the snapshot as it is. *)
Theorem X24_export_import_roundtrip :
  forall (J : JSON) (w : World) (m : gmap string value) (text : string),
    ITRStorage.snapshot w = VObj m ->
    (ITRStorage.export w).1 = Ok text ->
    JSON_parse text = Some (VObj m) ->
    let cleared := (ITRStorage.clear w).2 in
    (ITRStorage.persists (VObj m) cleared ->
     (ITRStorage.import text cleared).1 = Ok true
     /\ ITRStorage.snapshot (ITRStorage.import text cleared).2 = VObj m)
    /\
    (ITRStorage.persists (VObj m) w ->
     (ITRStorage.import text w).1 = Ok true
     /\ ITRStorage.snapshot (ITRStorage.import text w).2 = VObj m).
Proof.
  intros J w m text Hs Hex Hp cleared. split; intros Hper.
  - rewrite (import_valid _ _ _ Hp). split; [done|]. simpl.
    destruct (save_persisted _ _ Hper) as (-> & _).
    unfold ITRStorage.merged_of, spread. unfold cleared. rewrite snapshot_cleared.
    simpl. by rewrite (right_id_L ∅ (∪)).
  - rewrite (import_valid _ _ _ Hp). split; [done|]. simpl.
    destruct (save_persisted _ _ Hper) as (-> & _).
    by apply merged_idem.
Qed.

(** X24 on a store that holds the personal section. *)
Lemma X24_witness :
  let w := world_with_personal in
  let m : gmap string value := {[ "personalDetails" := personal_sample ]} in
  let text := RefJSON.stringify_indent (VObj m) 2 in
  let cleared := (ITRStorage.clear w).2 in
  ((ITRStorage.import (J := RefJSON.ref) text cleared).1 = Ok true
   /\ ITRStorage.snapshot (J := RefJSON.ref)
        (ITRStorage.import (J := RefJSON.ref) text cleared).2 = VObj m)
  /\
  ((ITRStorage.import (J := RefJSON.ref) text w).1 = Ok true
   /\ ITRStorage.snapshot (J := RefJSON.ref)
        (ITRStorage.import (J := RefJSON.ref) text w).2 = VObj m).
Proof.
  intros w m text cleared.
  assert (Hs : ITRStorage.snapshot (J := RefJSON.ref) w = VObj m)
    by (vm_compute; reflexivity).
  assert (Hex : (ITRStorage.export (J := RefJSON.ref) w).1 = Ok text)
    by (vm_compute; reflexivity).
  assert (Hp : JSON_parse (JSON := RefJSON.ref) text = Some (VObj m))
    by (vm_compute; reflexivity).
  destruct (X24_export_import_roundtrip RefJSON.ref w m text Hs Hex Hp) as [H1 H2].
  split; [apply H1 | apply H2]; vm_compute; repeat split; discriminate.
Defined.

(** X25. Saving the same data a second time changes neither the substrate
    nor the snapshot; the second write is accepted whenever the first one
    was, and the listeners are called again with the same snapshot. *)
Theorem X25_save_idempotent :
  forall (J : JSON) (w : World) (data : value),
    ITRStorage.persists data w ->
    let w1 := (ITRStorage.save data w).2 in
    let w2 := (ITRStorage.save data w1).2 in
    localStorage w2 = localStorage w1
    /\ ITRStorage.snapshot w2 = ITRStorage.snapshot w1
    /\ calls w2
       = calls w1 ++ map (fun callback => (callback, ITRStorage.snapshot w1)) (listeners w).
Proof.
  intros J w data Hp w1 w2.
  destruct (save_persisted _ _ Hp) as (Hs1 & Hg1 & Hc1). fold w1 in Hs1, Hg1, Hc1.
  assert (Em : ITRStorage.merged_of data w1 = ITRStorage.merged_of data w).
  { unfold ITRStorage.merged_of at 1. rewrite Hs1.
    unfold ITRStorage.merged_of, spread. simpl.
    by rewrite (assoc_L (∪)), (idemp_L (∪)). }
  destruct Hp as (Hacc & Hne & Hparse).
  assert (El : localStorage w1
               = Storage.mk (<[STORAGE_KEY := JSON_stringify (ITRStorage.merged_of data w)]>
                               (Storage.items (localStorage w)))
                            (Storage.quota (localStorage w))).
  { unfold w1. by destruct (save_accepted _ _ Hacc) as [c ->]. }
  assert (Hacc2 : Storage.accepts STORAGE_KEY
                    (JSON_stringify (ITRStorage.merged_of data w1)) (localStorage w1) = true).
  { rewrite Em, El. unfold Storage.accepts in *. simpl.
    by rewrite insert_insert_eq. }
  assert (Hl : listeners w1 = listeners w).
  { unfold w1. by destruct (save_schedule data w) as (_ & _ & _ & _ & ->). }
  unfold w2. destruct (save_accepted _ _ Hacc2) as [c ->]. simpl.
  rewrite Em, Hl. split_and!.
  - rewrite El. simpl. by rewrite insert_insert_eq.
  - apply snapshot_items. simpl. rewrite El. simpl. by rewrite insert_insert_eq.
  - by rewrite Hs1.
Qed.

(** X25 on a store that holds the personal section. *)
Lemma X25_witness :
  let w := world_with_personal in
  let data := section_only "incomeDetails" income_sample in
  let w1 := (ITRStorage.save (J := RefJSON.ref) data w).2 in
  let w2 := (ITRStorage.save (J := RefJSON.ref) data w1).2 in
  localStorage w2 = localStorage w1
  /\ ITRStorage.snapshot (J := RefJSON.ref) w2 = ITRStorage.snapshot (J := RefJSON.ref) w1
  /\ calls w2
     = calls w1
       ++ map (fun callback => (callback, ITRStorage.snapshot (J := RefJSON.ref) w1))
              (listeners w).
Proof.
  apply (X25_save_idempotent RefJSON.ref world_with_personal
           (section_only "incomeDetails" income_sample)).
  vm_compute. repeat split; discriminate.
Defined.

(** X26. After a save of one section that goes through, the completion
    flag of that section is the truthiness of the saved value, and the
    flag of every other section is what the snapshot held before. *)
Theorem X26_completion_after_save :
  forall (J : JSON) (w : World) (section : string) (x : value),
    ITRStorage.persists (section_only section x) w ->
    let flag (name : string) : bool :=
      if decide (name = section) then truthy x
      else truthy_opt (own_props (ITRStorage.snapshot w) !! name) in
    (ITRStorage.getCompletionStatus (ITRStorage.save (section_only section x) w).2).1
    = Ok (CompletionStatus.mk (flag "personalDetails") (flag "incomeDetails")
                              (flag "deductions") (flag "taxSummary")).
Proof.
  intros J w section x Hp flag.
  rewrite (getCompletionStatus_object _ _ (load_persisted _ _ Hp)).
  assert (Hf : forall name,
             truthy_opt (own_props (ITRStorage.merged_of (section_only section x) w) !! name)
             = flag name).
  { intros name. unfold flag. case_decide as Hn.
    - subst name. by rewrite merged_section_eq.
    - by rewrite merged_section_ne. }
  by rewrite <- !Hf.
Qed.

(** X26 on a store that holds the personal section: the income section is
    added. *)
Lemma X26_witness :
  (ITRStorage.getCompletionStatus (J := RefJSON.ref)
     (ITRStorage.save (J := RefJSON.ref) (section_only "incomeDetails" income_sample)
        world_with_personal).2).1
  = Ok (CompletionStatus.mk true true false false).
Proof.
  apply (X26_completion_after_save RefJSON.ref world_with_personal
           "incomeDetails" income_sample).
  vm_compute. repeat split; discriminate.
Defined.

(** X27. A burst of [autoSave] calls, each less than 5000 ms after the
    one before: until 5000 ms after the last call nothing is written and
    no listener is called; from then on the store is that of one [save]
    of the data of the last call, and no timer is left. *)
Theorem X27_autoSave_burst :
  forall (J : JSON) (w : World) (p0 : value) (burst : list (nat * value)) (t : nat),
    World_wf w ->
    Forall (fun dp => dp.1 < AUTO_SAVE_INTERVAL) burst ->
    let wb := autoSave_burst (ITRStorage.autoSave p0 w).2 burst in
    let wt := ITRStorage.advance t wb in
    let final := List.last (map snd burst) p0 in
    (t < AUTO_SAVE_INTERVAL ->
     localStorage wt = localStorage w /\ calls wt = calls w /\ console wt = console w
     /\ map timer_data (timers wt) = [final])
    /\
    (AUTO_SAVE_INTERVAL ≤ t ->
     let ws := (ITRStorage.save final w).2 in
     localStorage wt = localStorage ws /\ calls wt = calls ws /\ console wt = console ws
     /\ timers wt = []).
Proof.
  intros J w p0 burst t Hwf Hb wb wt final.
  destruct (burst_pending w burst p0 (now w) (next_timer w) (Pos.succ (next_timer w)) Hb)
    as (n' & id' & nx' & E).
  assert (Eb : wb = mkWorld (localStorage w) (console w) n'
                      [mkTimer id' (n' + AUTO_SAVE_INTERVAL) final]
                      nx' (Some id') (listeners w) (calls w)).
  { unfold wb. rewrite (autoSave_wf _ _ Hwf). exact E. }
  split.
  - intros Ht. unfold wt. rewrite Eb.
    rewrite advance_one_later by (simpl; lia). done.
  - intros Ht ws. unfold wt. rewrite Eb.
    rewrite advance_one_due by (simpl; lia). cbn [timer_data].
    destruct w as [ls c n ts nx a l cs]. cbn [localStorage console listeners calls].
    rewrite (save_frame final ls c n ts nx a l cs). done.
Qed.

(** X27 on four calls, 4999, 10 and 3000 ms apart. *)
Lemma X27_witness :
  let w := world_with_personal in
  let p := section_only "incomeDetails" income_sample in
  let burst := [(4999, section_only "personalDetails" personal_sample');
                (10, section_only "deductions" VNull); (3000, p)] in
  let wb := autoSave_burst (J := RefJSON.ref)
              (ITRStorage.autoSave (section_only "taxSummary" VNull) w).2 burst in
  let wt := ITRStorage.advance (J := RefJSON.ref) 5000 wb in
  let ws := (ITRStorage.save (J := RefJSON.ref) p w).2 in
  localStorage wt = localStorage ws /\ calls wt = calls ws /\ console wt = console ws
  /\ timers wt = [].
Proof.
  intros w p burst.
  assert (Hwf : World_wf w) by (apply World_wf_save; constructor).
  assert (Hb : Forall (fun dp : nat * value => dp.1 < AUTO_SAVE_INTERVAL) burst)
    by (unfold AUTO_SAVE_INTERVAL, burst;
        repeat (constructor; [cbn [fst]; lia|]); constructor).
  apply (proj2 (X27_autoSave_burst RefJSON.ref w (section_only "taxSummary" VNull)
                  burst 5000 Hwf Hb)).
  unfold AUTO_SAVE_INTERVAL. lia.
Defined.

(** X28. The steps of the form are a chain: only the summary has no next
    step, only the personal step has no previous one, and
    [getPreviousStep] undoes [getNextStep] and conversely. *)
Theorem X28_steps_navigation :
  forall step : FormStep.t,
    (useITRForm.getNextStep step = None <-> step = FormStep.summary)
    /\ (useITRForm.getPreviousStep step = None <-> step = FormStep.personal)
    /\ (forall next, useITRForm.getNextStep step = Some next ->
                     useITRForm.getPreviousStep next = Some step)
    /\ (forall previous, useITRForm.getPreviousStep step = Some previous ->
                         useITRForm.getNextStep previous = Some step).
Proof.
  intros []; split_and!; try (split; intros; done);
    intros s; vm_compute; intros [= <-]; reflexivity.
Qed.

(** X28 from the income step. *)
Lemma X28_witness :
  useITRForm.getPreviousStep FormStep.deductions = Some FormStep.income
  /\ useITRForm.getNextStep FormStep.personal = Some FormStep.income.
Proof.
  split.
  - apply (proj1 (proj2 (proj2 (X28_steps_navigation FormStep.income)))). reflexivity.
  - apply (proj2 (proj2 (proj2 (X28_steps_navigation FormStep.income)))). reflexivity.
Defined.

(** X29. What [saveAndNext] stores for a step is what the form of that
    step loads when it mounts again, and the forms of the other steps
    load what they loaded before; [saveAndNext] returns true. *)
Theorem X29_saveAndNext_roundtrip :
  forall (J : JSON) (w : World) (step : FormStep.t) (data : value),
    ITRStorage.persists (section_only (useITRForm.section_key step) data) w ->
    truthy data = true ->
    let w' := (useITRForm.saveAndNext step data w).2 in
    (useITRForm.saveAndNext step data w).1 = Ok true
    /\ (useITRForm.loadStepData step w').1 = Ok (Some data)
    /\ forall other : FormStep.t,
         other ≠ step ->
         (useITRForm.loadStepData other w').1
         = Ok (let stepData :=
                 own_props (ITRStorage.snapshot w) !! useITRForm.section_key other in
               if truthy_opt stepData then stepData else None).
Proof.
  intros J w step data Hp Ht w'.
  assert (Es : useITRForm.saveAndNext step data w
               = (Ok true,
                  (ITRStorage.save (section_only (useITRForm.section_key step) data) w).2)).
  { unfold useITRForm.saveAndNext, bind, ret.
    pose proof (save_never_throws (section_only (useITRForm.section_key step) data) w) as Hs.
    destruct (ITRStorage.save _ w) as [r w1]. simpl in Hs. by subst r. }
  assert (El : forall s,
             (useITRForm.loadStepData s w').1
             = Ok (let stepData :=
                     own_props (ITRStorage.merged_of
                                  (section_only (useITRForm.section_key step) data) w)
                     !! useITRForm.section_key s in
                   if truthy_opt stepData then stepData else None)).
  { intros s. unfold useITRForm.loadStepData, bind, ITRStorage.lift, ret.
    pose proof (load_persisted _ _ Hp) as Hl.
    unfold w'. rewrite Es. cbn [snd].
    destruct (ITRStorage.load _) as [r w1]. simpl in Hl. subst r. reflexivity. }
  split_and!.
  - by rewrite Es.
  - rewrite El, merged_section_eq. simpl. by rewrite Ht.
  - intros other Hne. rewrite El. rewrite merged_section_ne; [done|].
    destruct other, step; done.
Qed.

(** X29 on the income step of a store that holds the personal section. *)
Lemma X29_witness :
  let w := world_with_personal in
  let w' := (useITRForm.saveAndNext (J := RefJSON.ref) FormStep.income income_sample w).2 in
  (useITRForm.saveAndNext (J := RefJSON.ref) FormStep.income income_sample w).1 = Ok true
  /\ (useITRForm.loadStepData (J := RefJSON.ref) FormStep.income w').1 = Ok (Some income_sample)
  /\ forall other : FormStep.t,
       other ≠ FormStep.income ->
       (useITRForm.loadStepData (J := RefJSON.ref) other w').1
       = Ok (let stepData :=
               own_props (ITRStorage.snapshot (J := RefJSON.ref) w)
               !! useITRForm.section_key other in
             if truthy_opt stepData then stepData else None).
Proof.
  apply (X29_saveAndNext_roundtrip RefJSON.ref world_with_personal FormStep.income income_sample).
  - vm_compute. repeat split; discriminate.
  - reflexivity.
Defined.

(** X30. The completion percentage of the home page is 25 times the
    number of complete sections: it lies between 0 and 100, it is 100
    exactly when the four sections are complete and 0 exactly when none
    is. *)
Theorem X30_completion_percentage :
  forall st : CompletionStatus.t,
    let completed := length (filter (fun b : bool => b = true) (Object_values_status st)) in
    getCompletionPercentage st = (25 * Z.of_nat completed)%Z
    /\ (0 <= getCompletionPercentage st <= 100)%Z
    /\ (getCompletionPercentage st = 100%Z
        <-> st = CompletionStatus.mk true true true true)
    /\ (getCompletionPercentage st = 0%Z
        <-> st = CompletionStatus.mk false false false false).
Proof.
  intros [[] [] [] []]; vm_compute; split_and!; try done; split; try done;
    intros [H _]; discriminate H.
Qed.
